(** * LlamaBurn effect-detection adapters

    A shallow embedding of the three command-line wrappers under
    [scripts/effect_detection/]:

    - [fx_encoder_detect.py]  (variant A, Fx-Encoder++),
    - [llm2fx_detect.py]      (variant B, LLM2Fx-Tools),
    - [openamp_detect.py]     (variant C, OpenAmp).

    Each script is one [main] that checks its argument, asks a third-party
    library for a result and prints one JSON document.  The libraries, the
    file system and [pathlib] are not part of the repository: they appear
    here as oracles ([host], and one [backend] record per script), and so
    does what [json.dumps] makes of a value that is not plain data.  Python
    values are a small inductive type; [main] is written in a writer/exception
    monad whose log records every observable step (file-system probe, import,
    library call, line printed on stdout). *)

From Stdlib Require Import ZArith String Ascii List Bool Lia.
From Stdlib Require Import PrimFloat SpecFloat FloatOps.
Import ListNotations.

Set Warnings "-register-all".

Local Open Scope string_scope.
Local Open Scope list_scope.

(* ================================================================== *)
(** ** Python values *)
(* ================================================================== *)

(** The values the scripts handle.  A [dict] keeps its entries in insertion
    order, which is the order [items()] and [json.dumps] follow, so it is an
    association list.  [VObj] stands for an object of a foreign class that
    has no [get], no [items] and is not iterable, such as a numpy scalar:
    [cls] is [type(v).__name__], [tp] is the name CPython prints for the type
    in its own error texts (the dotted name when the class is written in C:
    "float32" and "numpy.float32"), and [float()] succeeds on the object
    when the class defines [__float__]. *)
Inductive value : Type :=
| VNone
| VBool (b : bool)
| VInt (n : Z)
| VFloat (x : float)
| VStr (s : string)
| VList (items : list value)
| VDict (entries : list (value * value))
| VObj (cls : string) (tp : string) (as_float : option float).

Notation "k |-> v" := (VStr k, v) (at level 60, no associativity).

(** The name of the type of [v] as CPython prints it in the texts of its
    [AttributeError] and [TypeError]. *)
Definition tp_name (v : value) : string :=
  match v with
  | VNone => "NoneType"
  | VBool _ => "bool"
  | VInt _ => "int"
  | VFloat _ => "float"
  | VStr _ => "str"
  | VList _ => "list"
  | VDict _ => "dict"
  | VObj _ tp _ => tp
  end.

Definition is_str (v : value) : bool :=
  match v with VStr _ => true | _ => false end.

Definition is_float (v : value) : bool :=
  match v with VFloat _ => true | _ => false end.

(** Looking a [str] key up in a dict: the first entry whose key is that
    string (no value of another built-in type is equal to a [str]). *)
Fixpoint lookup (k : string) (d : list (value * value)) : option value :=
  match d with
  | [] => None
  | (VStr k', v) :: rest => if String.eqb k k' then Some v else lookup k rest
  | _ :: rest => lookup k rest
  end.

(** [d.get(k, dflt)] on a dict. *)
Definition dict_get (k : string) (dflt : value) (d : list (value * value))
    : value :=
  match lookup k d with Some v => v | None => dflt end.

(** The keys of a dict, in order. *)
Definition keys (d : list (value * value)) : list value := map fst d.

(** The one-character strings of a string, as iterating over a [str] yields. *)
Fixpoint chars (s : string) : list value :=
  match s with
  | EmptyString => []
  | String c rest => VStr (String c EmptyString) :: chars rest
  end.

(** [float(n)] for an [int]: round to the nearest binary64, ties to even;
    [None] when the result overflows (Python raises [OverflowError]). *)
Definition float_of_int (n : Z) : option float :=
  let x := SF2Prim (binary_normalize prec emax n 0 false) in
  if is_infinity x then None else Some x.

(* ================================================================== *)
(** ** Exceptions, the log and the process monad *)
(* ================================================================== *)

(** The two [except] clauses of the scripts tell [ImportError] (with its
    subclasses) from every other [Exception]; [exn_msg] is [str(e)].
    Exceptions outside [Exception] (a keyboard interrupt) are not modelled. *)
Inductive exn_class : Type :=
| ImportError
| OtherException (name : string).

Record exn : Type := mk_exn { exn_cls : exn_class; exn_msg : string }.

Definition is_import_error (e : exn) : bool :=
  match exn_cls e with ImportError => true | OtherException _ => false end.

Definition AttributeError (v : value) (attr : string) : exn :=
  mk_exn (OtherException "AttributeError")
         ("'" ++ tp_name v ++ "' object has no attribute '" ++ attr ++ "'").

Definition TypeError (msg : string) : exn :=
  mk_exn (OtherException "TypeError") msg.

(** What a call into code outside the repository does. *)
Inductive outcome (A : Type) : Type :=
| Returns (a : A)
| Raises (e : exn).
Arguments Returns {A} a.
Arguments Raises {A} e.

(** The text [json.dumps] returns, kept as the value it renders. *)
Inductive json : Type := Json (doc : value).

Definition doc_of (j : json) : value := match j with Json d => d end.

(** Observable steps of a run. *)
Inductive event : Type :=
| EvExists (path : string)      (* Path.exists() *)
| EvImport (module : string)    (* an import statement *)
| EvCall (callee : string)      (* a call into the library *)
| EvPrint (line : json).        (* print(...) on stdout *)

Inductive res (A : Type) : Type :=
| Ok (a : A)
| Raise (e : exn)
| Exit (code : Z).              (* sys.exit(code) *)
Arguments Ok {A} a.
Arguments Raise {A} e.
Arguments Exit {A} code.

Definition M (A : Type) : Type := (list event * res A)%type.

Definition ret {A} (a : A) : M A := ([], Ok a).

Definition bind {A B} (m : M A) (f : A -> M B) : M B :=
  match m with
  | (t, Ok a) => let (t', r) := f a in (t ++ t', r)
  | (t, Raise e) => (t, Raise e)
  | (t, Exit c) => (t, Exit c)
  end.

Notation "x <- m ;; k" := (bind m (fun x => k))
  (at level 61, m at next level, right associativity).
Notation "m ;; k" := (bind m (fun _ => k))
  (at level 61, right associativity).

Definition raise {A} (e : exn) : M A := ([], Raise e).
Definition sys_exit {A} (code : Z) : M A := ([], Exit code).
Definition emit (ev : event) : M unit := ([ev], Ok tt).

(** [try: body except ImportError ...: h_import except Exception as e: h_other].
    [sys.exit] inside the body is not an [Exception] and passes through. *)
Definition try_except {A} (body : M A)
    (h_import : exn -> M A) (h_other : exn -> M A) : M A :=
  match body with
  | (t, Raise e) =>
      let (t', r) := (if is_import_error e then h_import e else h_other e) in
      (t ++ t', r)
  | done => done
  end.

(** [if c: body] as a statement. *)
Definition when (c : bool) (body : M unit) : M unit :=
  if c then body else ret tt.

(** A call into foreign code, logged before it runs. *)
Definition call {A} (ev : event) (o : outcome A) : M A :=
  emit ev ;; match o with Returns a => ret a | Raises e => raise e end.

(** [for x in xs: acc = step(acc, x)] *)
Fixpoint for_each {A B} (xs : list A) (step : B -> A -> M B) (acc : B) : M B :=
  match xs with
  | [] => ret acc
  | x :: rest => acc' <- step acc x ;; for_each rest step acc'
  end.

(** The lines printed on stdout, in order. *)
Fixpoint stdout (t : list event) : list value :=
  match t with
  | [] => []
  | EvPrint j :: rest => doc_of j :: stdout rest
  | _ :: rest => stdout rest
  end.

(** The exit status of the process: 0 when [main] returns, the argument of
    [sys.exit], 1 for an exception nobody caught. *)
Definition status {A} (r : res A) : Z :=
  match r with Ok _ => 0%Z | Exit c => c | Raise _ => 1%Z end.

Definition run (m : M unit) : list event * Z := (fst m, status (snd m)).

(* ================================================================== *)
(** ** The host: pathlib, the file system, the float parser, json *)
(* ================================================================== *)

Record host : Type := mk_host {
  path_str : string -> string;            (* str(Path(arg)) *)
  path_exists : string -> outcome bool;   (* Path.exists(), by the path's text:
                                             its answer, or the OSError it
                                             lets through *)
  float_of_str : string -> float + string;(* float(s): the number, or the
                                             message of the ValueError *)
  json_refuses : value -> option (string * string)
                                          (* json.dumps(v) on a value that is
                                             not plain: the class and the text
                                             of the exception, if it raises *)
}.

(** [Path(arg)]: a path object is kept as the text [str()] and an f-string
    give for it. *)
Definition Path (h : host) (arg : string) : string := path_str h arg.

(** [audio_path.exists()] *)
Definition exists_ (h : host) (p : string) : M bool :=
  call (EvExists p) (path_exists h p).

(** [str(PurePosixPath(s))]: empty and "." components and repeated or
    trailing slashes are dropped; exactly two leading slashes are kept. *)
Fixpoint components (s : string) : list string :=
  match s with
  | EmptyString => [EmptyString]
  | String c rest =>
      if Ascii.eqb c "/" then EmptyString :: components rest
      else match components rest with
           | [] => [String c EmptyString]
           | p :: ps => String c p :: ps
           end
  end.

Fixpoint leading_slashes (s : string) : nat :=
  match s with
  | String c rest => if Ascii.eqb c "/" then S (leading_slashes rest) else O
  | EmptyString => O
  end.

Definition posix_str (s : string) : string :=
  let parts :=
    filter (fun p => negb (String.eqb p "") && negb (String.eqb p "."))
           (components s) in
  let root :=
    match leading_slashes s with
    | O => ""
    | 2%nat => "//"
    | _ => "/"
    end in
  let text := (root ++ String.concat "/" parts)%string in
  if String.eqb text "" then "." else text.

(* ================================================================== *)
(** ** Built-ins the scripts call *)
(* ================================================================== *)

(** [o.get(k, dflt)] *)
Definition py_get (o : value) (k : string) (dflt : value) : M value :=
  match o with
  | VDict d => ret (dict_get k dflt d)
  | _ => raise (AttributeError o "get")
  end.

(** [o.items()] *)
Definition py_items (o : value) : M (list (value * value)) :=
  match o with
  | VDict d => ret d
  | _ => raise (AttributeError o "items")
  end.

(** The elements a [for] loop over [o] visits. *)
Definition py_iter (o : value) : M (list value) :=
  match o with
  | VList l => ret l
  | VDict d => ret (keys d)
  | VStr s => ret (chars s)
  | _ => raise (TypeError ("'" ++ tp_name o ++ "' object is not iterable"))
  end.

(** [float(v)] *)
Definition py_float (h : host) (v : value) : M value :=
  match v with
  | VFloat x => ret (VFloat x)
  | VBool b => ret (VFloat (if b then 1%float else 0%float))
  | VInt n =>
      match float_of_int n with
      | Some x => ret (VFloat x)
      | None => raise (mk_exn (OtherException "OverflowError")
                              "int too large to convert to float")
      end
  | VStr s =>
      match float_of_str h s with
      | inl x => ret (VFloat x)
      | inr msg => raise (mk_exn (OtherException "ValueError") msg)
      end
  | VObj _ _ (Some x) => ret (VFloat x)
  | _ => raise (TypeError ("float() argument must be a string or a real number, not '"
                           ++ tp_name v ++ "'"))
  end.

(** Plain data: [None], booleans, floats, strings, integers of fewer than
    640 digits (below every digit limit the interpreter accepts), lists and
    dicts with string keys, nested at most [depth] deep.  [json.dumps]
    renders such a value whatever the limits of the interpreter. *)
Fixpoint plain_at (depth : nat) (v : value) : bool :=
  match v with
  | VNone | VBool _ | VFloat _ | VStr _ => true
  | VInt n => (Z.abs n <? 10 ^ 640)%Z
  | VList items =>
      match depth with
      | O => false
      | S d => forallb (plain_at d) items
      end
  | VDict entries =>
      match depth with
      | O => false
      | S d => forallb (fun entry => is_str (fst entry) && plain_at d (snd entry))
                       entries
      end
  | VObj _ _ _ => false
  end.

Definition plain (v : value) : bool := plain_at 16 v.

(** The exception [json.dumps(v)] raises, if it raises: none on plain data;
    on any other value (foreign objects, keys that are no strings, huge
    integers, deep nesting) what the host's [json.dumps] does.  Whatever it
    raises is no [ImportError]. *)
Definition json_error (h : host) (v : value) : option exn :=
  if plain v then None
  else match json_refuses h v with
       | Some (cls, msg) => Some (mk_exn (OtherException cls) msg)
       | None => None
       end.

Definition json_dumps (h : host) (v : value) : M json :=
  match json_error h v with
  | Some e => raise e
  | None => ret (Json v)
  end.

Definition print (line : json) : M unit := emit (EvPrint line).

(** [print(json.dumps(doc))]: the text is built first, then printed whole. *)
Definition print_json (h : host) (doc : value) : M unit :=
  line <- json_dumps h doc ;; print line.

(* ================================================================== *)
(** ** fx_encoder_detect.py (variant A) *)
(* ================================================================== *)

Module fx_encoder_detect.

Record backend : Type := mk_backend {
  import_fx_encoder : outcome unit;    (* from fx_encoder import FxEncoder *)
  from_pretrained : outcome unit;      (* FxEncoder.from_pretrained() *)
  analyze : string -> outcome value    (* encoder.analyze(path) *)
}.

Definition usage : string := "Usage: fx_encoder_detect.py <audio_file>".
Definition install : string :=
  "git clone https://github.com/SonyResearch/Fx-Encoder_PlusPlus && pip install -r requirements.txt".

(** The body of the [for name, conf in ...items()] loop. *)
Definition append_effect (h : host) (effects : list value)
    (item : value * value) : M (list value) :=
  let (name, conf) := item in
  c <- py_float h conf ;;
  ret (effects ++ [VDict ["name" |-> name; "confidence" |-> c]]).

(** The statements of the [try] block after the library has answered. *)
Definition normalize (h : host) (result : value) : M unit :=
  raw <- py_get result "effects" (VDict []) ;;
  items <- py_items raw ;;
  effects <- for_each items (append_effect h) [] ;;
  embeddings <- py_get result "embeddings" (VList []) ;;
  let output := VDict ["effects" |-> VList effects;
                       "embeddings" |-> embeddings] in
  print_json h output.

(** The [try] block. *)
Definition try_block (h : host) (b : backend) (audio_path : string) : M unit :=
  call (EvImport "fx_encoder") (import_fx_encoder b) ;;
  call (EvCall "FxEncoder.from_pretrained") (from_pretrained b) ;;
  result <- call (EvCall "encoder.analyze") (analyze b audio_path) ;;
  normalize h result.

Definition main (h : host) (b : backend) (argv : list string) : M unit :=
  when (length argv <? 2)%nat
    (print_json h (VDict ["error" |-> VStr usage]) ;; sys_exit 1) ;;
  let audio_path := Path h (nth 1 argv "") in
  found <- exists_ h audio_path ;;
  when (negb found)
    (print_json h (VDict ["error" |-> VStr ("File not found: " ++ audio_path)]) ;;
     sys_exit 1) ;;
  try_except
    (try_block h b audio_path)
    (fun _ =>
       print_json h (VDict ["error" |-> VStr "fx_encoder not installed";
                          "install" |-> VStr install]) ;;
       sys_exit 1)
    (fun e =>
       print_json h (VDict ["error" |-> VStr (exn_msg e)]) ;;
       sys_exit 1).

End fx_encoder_detect.

(* ================================================================== *)
(** ** llm2fx_detect.py (variant B) *)
(* ================================================================== *)

Module llm2fx_detect.

Record backend : Type := mk_backend {
  import_llm2fx : outcome unit;          (* from llm2fx import EffectPredictor *)
  from_pretrained : outcome unit;        (* EffectPredictor.from_pretrained() *)
  analyze_audio : string -> outcome value (* predictor.analyze_audio(path) *)
}.

Definition usage : string := "Usage: llm2fx_detect.py <audio_file>".
Definition install : string :=
  "pip install llm2fx-tools  # See: https://arxiv.org/abs/2512.01559".

(** The body of the [for effect in ...] loop. *)
Definition append_effect (effects : list value) (effect : value)
    : M (list value) :=
  name <- py_get effect "type" (VStr "unknown") ;;
  confidence <- py_get effect "confidence" (VFloat 0.5) ;;
  parameters <- py_get effect "params" (VDict []) ;;
  ret (effects ++ [VDict ["name" |-> name;
                          "confidence" |-> confidence;
                          "parameters" |-> parameters]]).

Definition normalize (h : host) (result : value) : M unit :=
  raw <- py_get result "effect_chain" (VList []) ;;
  chain <- py_iter raw ;;
  effects <- for_each chain append_effect [] ;;
  let output := VDict ["effects" |-> VList effects;
                       "embeddings" |-> VList []] in
  print_json h output.

(** The [try] block. *)
Definition try_block (h : host) (b : backend) (audio_path : string) : M unit :=
  call (EvImport "llm2fx") (import_llm2fx b) ;;
  call (EvCall "EffectPredictor.from_pretrained") (from_pretrained b) ;;
  result <- call (EvCall "predictor.analyze_audio") (analyze_audio b audio_path) ;;
  normalize h result.

Definition main (h : host) (b : backend) (argv : list string) : M unit :=
  when (length argv <? 2)%nat
    (print_json h (VDict ["error" |-> VStr usage]) ;; sys_exit 1) ;;
  let audio_path := Path h (nth 1 argv "") in
  found <- exists_ h audio_path ;;
  when (negb found)
    (print_json h (VDict ["error" |-> VStr ("File not found: " ++ audio_path)]) ;;
     sys_exit 1) ;;
  try_except
    (try_block h b audio_path)
    (fun e =>
       print_json h (VDict ["error" |-> VStr ("Import failed: " ++ exn_msg e);
                          "install" |-> VStr install]) ;;
       sys_exit 1)
    (fun e =>
       print_json h (VDict ["error" |-> VStr (exn_msg e)]) ;;
       sys_exit 1).

End llm2fx_detect.

(* ================================================================== *)
(** ** openamp_detect.py (variant C) *)
(* ================================================================== *)

Module openamp_detect.

Record backend : Type := mk_backend {
  import_librosa : outcome unit;         (* import librosa *)
  import_openamp : outcome unit;         (* from openamp import FxEncoder *)
  librosa_load : string -> outcome (value * value);
                                         (* librosa.load(path, sr=None) *)
  from_pretrained : outcome unit;        (* FxEncoder.from_pretrained() *)
  extract : value -> value -> outcome value (* encoder.extract(audio, sr) *)
}.

Definition usage : string := "Usage: openamp_detect.py <audio_file>".
Definition install : string := "pip install openamp librosa".

Definition append_effect (h : host) (effects : list value)
    (item : value * value) : M (list value) :=
  let (name, conf) := item in
  c <- py_float h conf ;;
  ret (effects ++ [VDict ["name" |-> name; "confidence" |-> c]]).

Definition normalize (h : host) (result : value) : M unit :=
  raw <- py_get result "detected_effects" (VDict []) ;;
  items <- py_items raw ;;
  effects <- for_each items (append_effect h) [] ;;
  embeddings <- py_get result "encodings" (VList []) ;;
  let output := VDict ["effects" |-> VList effects;
                       "embeddings" |-> embeddings] in
  print_json h output.

(** The [try] block. *)
Definition try_block (h : host) (b : backend) (audio_path : string) : M unit :=
  call (EvImport "librosa") (import_librosa b) ;;
  call (EvImport "openamp") (import_openamp b) ;;
  loaded <- call (EvCall "librosa.load") (librosa_load b audio_path) ;;
  let (audio, sr) := loaded : value * value in
  call (EvCall "FxEncoder.from_pretrained") (from_pretrained b) ;;
  result <- call (EvCall "encoder.extract") (extract b audio sr) ;;
  normalize h result.

Definition main (h : host) (b : backend) (argv : list string) : M unit :=
  when (length argv <? 2)%nat
    (print_json h (VDict ["error" |-> VStr usage]) ;; sys_exit 1) ;;
  let audio_path := Path h (nth 1 argv "") in
  found <- exists_ h audio_path ;;
  when (negb found)
    (print_json h (VDict ["error" |-> VStr ("File not found: " ++ audio_path)]) ;;
     sys_exit 1) ;;
  try_except
    (try_block h b audio_path)
    (fun e =>
       print_json h (VDict ["error" |-> VStr ("Import failed: " ++ exn_msg e);
                          "install" |-> VStr install]) ;;
       sys_exit 1)
    (fun e =>
       print_json h (VDict ["error" |-> VStr (exn_msg e)]) ;;
       sys_exit 1).

End openamp_detect.

(* ================================================================== *)
(** ** Documents on stdout *)
(* ================================================================== *)

(** The value under key [k] of a document, if it is an object with that key. *)
Definition field (k : string) (doc : value) : option value :=
  match doc with VDict d => lookup k d | _ => None end.

Definition has_field (k : string) (doc : value) : bool :=
  match field k doc with Some _ => true | None => false end.

(** A DetectionResult: [effects] (an array) and [embeddings], no [error]. *)
Definition is_detection_result (doc : value) : bool :=
  match field "effects" doc with Some (VList _) => true | _ => false end
  && has_field "embeddings" doc
  && negb (has_field "error" doc).


(** What the loop of variant B appends for one entry of the chain. *)
Definition llm2fx_effect (entry e : value) : Prop :=
  exists d, entry = VDict d /\
    e = VDict ["name" |-> dict_get "type" (VStr "unknown") d;
               "confidence" |-> dict_get "confidence" (VFloat 0.5) d;
               "parameters" |-> dict_get "params" (VDict []) d].

(** What the loops of variants A and C append for one item of the mapping. *)
Definition coerced_effect (h : host) (item : value * value) (e : value) : Prop :=
  exists x, py_float h (snd item) = ret (VFloat x) /\
    e = VDict ["name" |-> fst item; "confidence" |-> VFloat x].

(** A step that neither logs nor exits: it returns or raises. *)
Definition quiet {A} (m : M A) : Prop :=
  (exists a, m = ret a) \/ (exists e, m = raise e).

(** The frame the three [main]s share: usage check, existence check, the
    [try] block and its two handlers. *)
Definition script (h : host) (usage : string) (block : string -> M unit)
    (import_msg : exn -> string) (install : string) (argv : list string)
    : M unit :=
  when (length argv <? 2)%nat
    (print_json h (VDict ["error" |-> VStr usage]) ;; sys_exit 1) ;;
  let audio_path := Path h (nth 1 argv "") in
  found <- exists_ h audio_path ;;
  when (negb found)
    (print_json h (VDict ["error" |-> VStr ("File not found: " ++ audio_path)]) ;;
     sys_exit 1) ;;
  try_except
    (block audio_path)
    (fun e =>
       print_json h (VDict ["error" |-> VStr (import_msg e);
                          "install" |-> VStr install]) ;;
       sys_exit 1)
    (fun e =>
       print_json h (VDict ["error" |-> VStr (exn_msg e)]) ;;
       sys_exit 1).

(** The document the handlers print for exception [e]. *)
Definition error_doc (import_msg : exn -> string) (install : string) (e : exn)
    : value :=
  if is_import_error e
  then VDict ["error" |-> VStr (import_msg e); "install" |-> VStr install]
  else VDict ["error" |-> VStr (exn_msg e)].

(** The five ways a run can go. *)
Inductive run_shape (h : host) (usage : string) (block : string -> M unit)
    (import_msg : exn -> string) (install : string) (argv : list string)
    : M unit -> Prop :=
| RunUsage :
    (length argv < 2)%nat ->
    run_shape h usage block import_msg install argv
      ([EvPrint (Json (VDict ["error" |-> VStr usage]))], Exit 1)
| RunProbeFailed e :
    (2 <= length argv)%nat ->
    path_exists h (Path h (nth 1 argv "")) = Raises e ->
    run_shape h usage block import_msg install argv
      ([EvExists (Path h (nth 1 argv ""))], Raise e)
| RunMissing :
    (2 <= length argv)%nat ->
    path_exists h (Path h (nth 1 argv "")) = Returns false ->
    run_shape h usage block import_msg install argv
      ([EvExists (Path h (nth 1 argv ""));
        EvPrint (Json (VDict ["error" |->
           VStr ("File not found: " ++ Path h (nth 1 argv ""))]))], Exit 1)
| RunFailed t e :
    (2 <= length argv)%nat ->
    path_exists h (Path h (nth 1 argv "")) = Returns true ->
    block (Path h (nth 1 argv "")) = (t, Raise e) ->
    run_shape h usage block import_msg install argv
      (EvExists (Path h (nth 1 argv "")) :: t
         ++ [EvPrint (Json (error_doc import_msg install e))], Exit 1)
| RunDone t r :
    (2 <= length argv)%nat ->
    path_exists h (Path h (nth 1 argv "")) = Returns true ->
    block (Path h (nth 1 argv "")) = (t, r) ->
    (forall e, r <> Raise e) ->
    run_shape h usage block import_msg install argv
      (EvExists (Path h (nth 1 argv "")) :: t, r).

(** The entries variant B's loop visits for [path]: what iterating over
    the [effect_chain] of the library's answer yields. *)
Definition llm2fx_chain (b : llm2fx_detect.backend) (path : string)
    (chain : list value) : Prop :=
  exists rd, llm2fx_detect.analyze_audio b path = Returns (VDict rd) /\
             py_iter (dict_get "effect_chain" (VList []) rd) = ret chain.

(** The existence check of a run with a path argument answers: it does not
    let an [OSError] through. *)
Definition probe_returns (h : host) (argv : list string) : Prop :=
  (2 <= length argv)%nat ->
  exists found, path_exists h (Path h (nth 1 argv "")) = Returns found.


(** Some step of the log is an import or a call into the library. *)
Definition touches_library (t : list event) : bool :=
  existsb (fun ev => match ev with
                     | EvImport _ | EvCall _ => true
                     | _ => false
                     end) t.

(** The steps every run of an adapter logs before its library answers. *)
Definition fx_encoder_steps (p : string) : list event :=
  [EvExists p; EvImport "fx_encoder"; EvCall "FxEncoder.from_pretrained";
   EvCall "encoder.analyze"].

Definition llm2fx_steps (p : string) : list event :=
  [EvExists p; EvImport "llm2fx"; EvCall "EffectPredictor.from_pretrained";
   EvCall "predictor.analyze_audio"].

Definition openamp_steps (p : string) : list event :=
  [EvExists p; EvImport "librosa"; EvImport "openamp"; EvCall "librosa.load";
   EvCall "FxEncoder.from_pretrained"; EvCall "encoder.extract"].

(** The run gets as far as the library's answer, and the answer is [result]:
    a path argument is there, it names an existing entry, the imports and
    the loading of the model succeed. *)
Definition fx_encoder_result (h : host) (b : fx_encoder_detect.backend)
    (argv : list string) (result : value) : Prop :=
  (2 <= length argv)%nat /\
  path_exists h (Path h (nth 1 argv "")) = Returns true /\
  fx_encoder_detect.import_fx_encoder b = Returns tt /\
  fx_encoder_detect.from_pretrained b = Returns tt /\
  fx_encoder_detect.analyze b (Path h (nth 1 argv "")) = Returns result.

Definition llm2fx_result (h : host) (b : llm2fx_detect.backend)
    (argv : list string) (result : value) : Prop :=
  (2 <= length argv)%nat /\
  path_exists h (Path h (nth 1 argv "")) = Returns true /\
  llm2fx_detect.import_llm2fx b = Returns tt /\
  llm2fx_detect.from_pretrained b = Returns tt /\
  llm2fx_detect.analyze_audio b (Path h (nth 1 argv "")) = Returns result.

Definition openamp_result (h : host) (b : openamp_detect.backend)
    (argv : list string) (result : value) : Prop :=
  (2 <= length argv)%nat /\
  path_exists h (Path h (nth 1 argv "")) = Returns true /\
  openamp_detect.import_librosa b = Returns tt /\
  openamp_detect.import_openamp b = Returns tt /\
  openamp_detect.from_pretrained b = Returns tt /\
  exists audio sr,
    openamp_detect.librosa_load b (Path h (nth 1 argv "")) = Returns (audio, sr) /\
    openamp_detect.extract b audio sr = Returns result.

(** The effect the loops of A and C build from a (name, float) item, and
    the effect the loop of B builds from the entries of a dict. *)
Definition named_effect (item : value * value) : value :=
  VDict ["name" |-> fst item; "confidence" |-> snd item].

Definition chain_effect (d : list (value * value)) : value :=
  VDict ["name" |-> dict_get "type" (VStr "unknown") d;
         "confidence" |-> dict_get "confidence" (VFloat 0.5) d;
         "parameters" |-> dict_get "params" (VDict []) d].

(* ================================================================== *)
(** ** Example hosts and backends *)
(* ================================================================== *)

(** [Path.exists()] on a POSIX file system holding [files]: a component of
    more than 255 characters makes [stat] fail with ENAMETOOLONG, which
    pathlib lets through; otherwise the answer says whether the path is
    there. *)
Definition name_too_long (p : string) : bool :=
  existsb (fun c => (255 <? String.length c)%nat) (components p).

Definition posix_exists (files : list string) (p : string) : outcome bool :=
  if name_too_long p
  then Raises (mk_exn (OtherException "OSError")
                      ("[Errno 36] File name too long: '" ++ p ++ "'")%string)
  else Returns (existsb (String.eqb p) files).

(** What [json.dumps] of CPython 3.11 refuses, with its default limits and
    short of the recursion limit: the first, in the order of the rendering,
    of a foreign object, a key that is no scalar, an integer of more than
    4300 digits. *)
Definition digits_error : string * string :=
  ("ValueError",
   "Exceeds the limit (4300 digits) for integer string conversion; use sys.set_int_max_str_digits() to increase the limit").

Definition int_refused (n : Z) : bool := (10 ^ 4300 <=? Z.abs n)%Z.

Fixpoint cpython_refuses (v : value) : option (string * string) :=
  match v with
  | VInt n => if int_refused n then Some digits_error else None
  | VList items =>
      (fix go (l : list value) : option (string * string) :=
         match l with
         | [] => None
         | x :: rest =>
             match cpython_refuses x with Some e => Some e | None => go rest end
         end) items
  | VDict entries =>
      (fix go (l : list (value * value)) : option (string * string) :=
         match l with
         | [] => None
         | (k, x) :: rest =>
             match
               match k with
               | VStr _ | VFloat _ | VBool _ | VNone => None
               | VInt n => if int_refused n then Some digits_error else None
               | _ => Some ("TypeError",
                            ("keys must be str, int, float, bool or None, not "
                               ++ tp_name k)%string)
               end
             with
             | Some e => Some e
             | None =>
                 match cpython_refuses x with Some e => Some e | None => go rest end
             end
         end) entries
  | VObj cls _ _ =>
      Some ("TypeError",
            ("Object of type " ++ cls ++ " is not JSON serializable")%string)
  | _ => None
  end.

(** A POSIX host holding the files [files]; its float parser knows the
    strings of [floats] and rejects the others. *)
Definition table_host (files : list string) (floats : list (string * float))
    : host :=
  mk_host posix_str
    (posix_exists files)
    (fun s =>
       match find (fun entry => String.eqb s (fst entry)) floats with
       | Some entry => inl (snd entry)
       | None => inr ("could not convert string to float: '" ++ s ++ "'")%string
       end)
    cpython_refuses.


Definition empty_host : host := table_host [] [].
Definition wav_host : host := table_host ["a.wav"] [("0.5", 0.5%float)].

Definition no_module (name : string) : exn :=
  mk_exn ImportError ("No module named '" ++ name ++ "'")%string.

(** Variant A with the library installed, answering [result]. *)
Definition fx_answers (result : value) : fx_encoder_detect.backend :=
  fx_encoder_detect.mk_backend (Returns tt) (Returns tt) (fun _ => Returns result).

(** Variant A without the library. *)
Definition fx_missing : fx_encoder_detect.backend :=
  fx_encoder_detect.mk_backend (Raises (no_module "fx_encoder")) (Returns tt)
    (fun _ => Returns VNone).

Definition llm2fx_answers (result : value) : llm2fx_detect.backend :=
  llm2fx_detect.mk_backend (Returns tt) (Returns tt) (fun _ => Returns result).

Definition llm2fx_missing : llm2fx_detect.backend :=
  llm2fx_detect.mk_backend (Raises (no_module "llm2fx")) (Returns tt)
    (fun _ => Returns VNone).

Definition openamp_answers (result : value) : openamp_detect.backend :=
  openamp_detect.mk_backend (Returns tt) (Returns tt)
    (fun _ => Returns (VObj "ndarray" "numpy.ndarray" None, VInt 44100))
    (Returns tt) (fun _ _ => Returns result).


Definition null_type_answer : value :=
  VDict ["effect_chain" |-> VList [VDict ["type" |-> VNone]]].

Definition bare_entry_answer : value :=
  VDict ["effect_chain" |-> VList [VDict ["type" |-> VStr "reverb"]]].


Definition int_confidence_answer : value :=
  VDict ["effect_chain" |->
    VList [VDict ["type" |-> VStr "reverb"; "confidence" |-> VInt 1]]].

Definition int_confidence_mapping : value :=
  VDict ["effects" |-> VDict ["reverb" |-> VInt 1]].

Definition int_confidence_detected : value :=
  VDict ["detected_effects" |-> VDict ["reverb" |-> VInt 1]].

(** A failure inside the library, and backends that meet one. *)
Definition bad_audio : exn :=
  mk_exn (OtherException "RuntimeError") "unsupported audio format".

Definition fx_analysis_fails (e : exn) : fx_encoder_detect.backend :=
  fx_encoder_detect.mk_backend (Returns tt) (Returns tt) (fun _ => Raises e).

Definition fx_loading_fails (e : exn) : fx_encoder_detect.backend :=
  fx_encoder_detect.mk_backend (Returns tt) (Raises e) (fun _ => Returns VNone).

Definition openamp_decoding_fails (e : exn) : openamp_detect.backend :=
  openamp_detect.mk_backend (Returns tt) (Returns tt) (fun _ => Raises e)
    (Returns tt) (fun _ _ => Returns VNone).

(** Answers used in the examples of the further properties. *)
Definition two_effects_answer : value :=
  VDict ["effects" |-> VDict ["reverb" |-> VFloat 0.5; "delay" |-> VFloat 0.25];
         "embeddings" |-> VList [VFloat 1; VFloat 2]].

Definition ndarray_answer : value :=
  VDict ["effects" |-> VDict ["reverb" |-> VFloat 0.5];
         "embeddings" |-> VObj "ndarray" "numpy.ndarray" None].

Definition two_entries_answer : value :=
  VDict ["effect_chain" |->
    VList [VDict ["type" |-> VStr "reverb"; "confidence" |-> VFloat 0.75];
           VDict ["type" |-> VStr "delay"]]].

Definition mixed_chain_answer : value :=
  VDict ["effect_chain" |-> VList [VDict ["type" |-> VStr "reverb"]; VStr "delay"]].

Definition embeddings_only_answer : value :=
  VDict ["embeddings" |-> VList [VFloat 1]].

(** The entry and the answer of the reverb scenario. *)
Definition reverb_entry : value :=
  VDict ["type" |-> VStr "reverb"; "params" |-> VDict ["decay" |-> VFloat 0x1.3333333333333p-2]].

Definition reverb_answer : value :=
  VDict ["effect_chain" |-> VList [reverb_entry]].

(* ================================================================== *)
(** ** Helper lemmas: the monad, the built-ins *)
(* ================================================================== *)

Lemma bind_ret_l {A B} (a : A) (f : A -> M B) : bind (ret a) f = f a.
Proof. unfold bind, ret. destruct (f a) as [t r]. reflexivity. Qed.

Lemma bind_raise {A B} (e : exn) (f : A -> M B) : bind (raise e) f = raise e.
Proof. reflexivity. Qed.

Lemma bind_emit {B} (ev : event) (f : unit -> M B) :
  bind (emit ev) f = (ev :: fst (f tt), snd (f tt)).
Proof. unfold bind, emit. destruct (f tt) as [t r]. reflexivity. Qed.

Lemma py_iter_quiet o : quiet (py_iter o).
Proof. destruct o; [right|right|right|right|left|left|left|right]; eexists; reflexivity. Qed.

Lemma py_float_cases h v :
  (exists x, py_float h v = ret (VFloat x)) \/ (exists e, py_float h v = raise e).
Proof.
  destruct v as [|b|n|x|s|l|d|cls tp [x|]]; cbn;
    try (left; eexists; reflexivity); try (right; eexists; reflexivity).
  - destruct (float_of_int n); [left|right]; eexists; reflexivity.
  - destruct (float_of_str h s); [left|right]; eexists; reflexivity.
Qed.

Lemma print_json_cases h doc :
  (json_error h doc = None /\ print_json h doc = ([EvPrint (Json doc)], Ok tt)) \/
  (exists e, json_error h doc = Some e /\ print_json h doc = raise e).
Proof.
  unfold print_json, json_dumps.
  destruct (json_error h doc) as [e|]; [right; exists e|left]; split; reflexivity.
Qed.

Lemma print_json_accepted h doc :
  json_error h doc = None -> print_json h doc = ([EvPrint (Json doc)], Ok tt).
Proof. intros H. unfold print_json, json_dumps. now rewrite H. Qed.

Lemma print_json_refused h doc e :
  json_error h doc = Some e -> print_json h doc = raise e.
Proof. intros H. unfold print_json, json_dumps. now rewrite H. Qed.

(** The error documents hold strings only: printing them never fails. *)
Lemma print_error1 (h : host) (msg : string) :
  print_json h (VDict ["error" |-> VStr msg])
  = ([EvPrint (Json (VDict ["error" |-> VStr msg]))], Ok tt).
Proof. reflexivity. Qed.

Lemma print_error2 (h : host) (msg hint : string) :
  print_json h (VDict ["error" |-> VStr msg; "install" |-> VStr hint])
  = ([EvPrint (Json (VDict ["error" |-> VStr msg; "install" |-> VStr hint]))],
     Ok tt).
Proof. reflexivity. Qed.

(* ================================================================== *)
(** ** Helper lemmas: loops and normalisation *)
(* ================================================================== *)

Lemma llm2fx_body (d : list (value * value)) (acc : list value) :
  llm2fx_detect.append_effect acc (VDict d)
  = ret (acc ++ [VDict ["name" |-> dict_get "type" (VStr "unknown") d;
                        "confidence" |-> dict_get "confidence" (VFloat 0.5) d;
                        "parameters" |-> dict_get "params" (VDict []) d]]).
Proof.
  unfold llm2fx_detect.append_effect. cbn [py_get]. now rewrite !bind_ret_l.
Qed.

Lemma llm2fx_loop (chain : list value) :
  forall acc,
    (exists e, for_each chain llm2fx_detect.append_effect acc = raise e) \/
    (exists effs, Forall2 llm2fx_effect chain effs /\
       for_each chain llm2fx_detect.append_effect acc = ret (acc ++ effs)).
Proof.
  induction chain as [|entry chain IH]; intros acc.
  - right. exists []. split; [constructor|]. cbn. now rewrite app_nil_r.
  - destruct entry as [| | | | | |d|]; try (left; eexists; reflexivity).
    cbn [for_each]. rewrite llm2fx_body, bind_ret_l.
    match goal with |- context [acc ++ [?v]] => set (e := v) end.
    destruct (IH (acc ++ [e])) as [[x Hx] | (effs & HF & Hx)].
    + left. exists x. exact Hx.
    + right. exists (e :: effs). split.
      * constructor; [|exact HF]. exists d. split; reflexivity.
      * rewrite Hx. now rewrite <- app_assoc.
Qed.

Lemma llm2fx_normalize (h : host) (result : value) :
  (exists e, llm2fx_detect.normalize h result = raise e) \/
  (exists rd chain effs,
     result = VDict rd /\
     py_iter (dict_get "effect_chain" (VList []) rd) = ret chain /\
     Forall2 llm2fx_effect chain effs /\
     llm2fx_detect.normalize h result =
       ([EvPrint (Json (VDict ["effects" |-> VList effs;
                               "embeddings" |-> VList []]))], Ok tt)).
Proof.
  destruct result as [| | | | | |rd|]; try (left; eexists; reflexivity).
  unfold llm2fx_detect.normalize. cbn [py_get]. rewrite bind_ret_l.
  destruct (py_iter_quiet (dict_get "effect_chain" (VList []) rd))
    as [[chain Hit] | [e Hit]]; rewrite Hit.
  2:{ left. exists e. reflexivity. }
  rewrite bind_ret_l.
  destruct (llm2fx_loop chain []) as [[e Hl] | (effs & HF & Hl)]; rewrite Hl.
  { left. exists e. reflexivity. }
  rewrite bind_ret_l. cbn [app].
  destruct (print_json_cases h
              (VDict ["effects" |-> VList effs; "embeddings" |-> VList []]))
    as [[_ Hp] | (e & _ & Hp)]; rewrite Hp.
  - right. exists rd, chain, effs. repeat split; assumption.
  - left. exists e. reflexivity.
Qed.

Lemma fx_loop (h : host) (items : list (value * value)) :
  forall acc,
    (exists e, for_each items (fx_encoder_detect.append_effect h) acc = raise e) \/
    (exists effs, Forall2 (coerced_effect h) items effs /\
       for_each items (fx_encoder_detect.append_effect h) acc = ret (acc ++ effs)).
Proof.
  induction items as [|[name conf] items IH]; intros acc.
  - right. exists []. split; [constructor|]. cbn. now rewrite app_nil_r.
  - cbn [for_each]. unfold fx_encoder_detect.append_effect at 1 3.
    destruct (py_float_cases h conf) as [[x Hx] | [e He]].
    + rewrite Hx, !bind_ret_l.
      match goal with |- context [acc ++ [?v]] => set (eff := v) end.
      destruct (IH (acc ++ [eff])) as [[e He] | (effs & HF & He)].
      * left. exists e. exact He.
      * right. exists (eff :: effs). split.
        -- constructor; [|exact HF]. exists x. split; [exact Hx | reflexivity].
        -- rewrite He. now rewrite <- app_assoc.
    + left. exists e. rewrite He. reflexivity.
Qed.

Lemma fx_encoder_normalize (h : host) (result : value) :
  (exists e, fx_encoder_detect.normalize h result = raise e) \/
  (exists rd items effs,
     result = VDict rd /\
     dict_get "effects" (VDict []) rd = VDict items /\
     Forall2 (coerced_effect h) items effs /\
     fx_encoder_detect.normalize h result =
       ([EvPrint (Json (VDict ["effects" |-> VList effs;
                               "embeddings" |-> dict_get "embeddings" (VList []) rd]))],
        Ok tt)).
Proof.
  destruct result as [| | | | | |rd|]; try (left; eexists; reflexivity).
  unfold fx_encoder_detect.normalize. cbn [py_get]. rewrite bind_ret_l.
  destruct (dict_get "effects" (VDict []) rd) as [| | | | | |items|] eqn:Hraw;
    try (left; eexists; reflexivity).
  cbn [py_items]. rewrite bind_ret_l.
  destruct (fx_loop h items []) as [[e Hl] | (effs & HF & Hl)]; rewrite Hl.
  { left. exists e. reflexivity. }
  rewrite !bind_ret_l. cbn [app].
  match goal with |- context [print_json h ?d] =>
    destruct (print_json_cases h d) as [[_ Hp] | (e & _ & Hp)]; rewrite Hp end.
  - right. exists rd, items, effs. repeat split; assumption.
  - left. exists e. reflexivity.
Qed.

Lemma openamp_normalize (h : host) (result : value) :
  (exists e, openamp_detect.normalize h result = raise e) \/
  (exists rd items effs,
     result = VDict rd /\
     dict_get "detected_effects" (VDict []) rd = VDict items /\
     Forall2 (coerced_effect h) items effs /\
     openamp_detect.normalize h result =
       ([EvPrint (Json (VDict ["effects" |-> VList effs;
                               "embeddings" |-> dict_get "encodings" (VList []) rd]))],
        Ok tt)).
Proof.
  destruct result as [| | | | | |rd|]; try (left; eexists; reflexivity).
  unfold openamp_detect.normalize. cbn [py_get]. rewrite bind_ret_l.
  destruct (dict_get "detected_effects" (VDict []) rd) as [| | | | | |items|] eqn:Hraw;
    try (left; eexists; reflexivity).
  cbn [py_items]. rewrite bind_ret_l.
  destruct (fx_loop h items []) as [[e Hl] | (effs & HF & Hl)];
    change (fx_encoder_detect.append_effect h)
      with (openamp_detect.append_effect h) in Hl; rewrite Hl.
  { left. exists e. reflexivity. }
  rewrite !bind_ret_l. cbn [app].
  match goal with |- context [print_json h ?d] =>
    destruct (print_json_cases h d) as [[_ Hp] | (e & _ & Hp)]; rewrite Hp end.
  - right. exists rd, items, effs. repeat split; assumption.
  - left. exists e. reflexivity.
Qed.

Lemma llm2fx_try_block (h : host) (b : llm2fx_detect.backend) (p : string) :
  (exists t e, llm2fx_detect.try_block h b p = (t, Raise e) /\ stdout t = []) \/
  (exists rd chain effs,
     llm2fx_detect.analyze_audio b p = Returns (VDict rd) /\
     py_iter (dict_get "effect_chain" (VList []) rd) = ret chain /\
     Forall2 llm2fx_effect chain effs /\
     llm2fx_detect.try_block h b p =
       ([EvImport "llm2fx"; EvCall "EffectPredictor.from_pretrained";
         EvCall "predictor.analyze_audio";
         EvPrint (Json (VDict ["effects" |-> VList effs;
                               "embeddings" |-> VList []]))], Ok tt)).
Proof.
  unfold llm2fx_detect.try_block, call.
  destruct (llm2fx_detect.import_llm2fx b) as [[]|e].
  2:{ left. do 2 eexists. cbn. split; reflexivity. }
  destruct (llm2fx_detect.from_pretrained b) as [[]|e].
  2:{ left. do 2 eexists. cbn. split; reflexivity. }
  destruct (llm2fx_detect.analyze_audio b p) as [result|e].
  2:{ left. do 2 eexists. cbn. split; reflexivity. }
  destruct (llm2fx_normalize h result) as [[e He] | (rd & chain & effs & -> & Hit & HF & He)].
  - left. do 2 eexists. cbn -[llm2fx_detect.normalize]. rewrite He. cbn.
    split; reflexivity.
  - right. exists rd, chain, effs. repeat split; try assumption.
    cbn -[llm2fx_detect.normalize]. rewrite He. reflexivity.
Qed.

Lemma script_shape h usage block import_msg install argv :
  run_shape h usage block import_msg install argv
    (script h usage block import_msg install argv).
Proof.
  unfold script.
  destruct (length argv <? 2)%nat eqn:Hlen.
  - apply Nat.ltb_lt in Hlen. cbn [when]. rewrite print_error1.
    cbn. now apply RunUsage.
  - apply Nat.ltb_ge in Hlen. cbn [when]. rewrite bind_ret_l.
    set (p := Path h (nth 1 argv "")).
    unfold exists_, call. rewrite bind_emit.
    destruct (path_exists h p) as [[|]|e] eqn:Hex; cbn [negb when fst snd ret raise bind].
    + destruct (block p) as [t r] eqn:Hb. destruct r as [[]|e|c].
      * cbn. apply (RunDone h usage block import_msg install argv t (Ok tt));
          [assumption|assumption|assumption|discriminate].
      * pose proof (RunFailed h usage block import_msg install argv t e
                      Hlen Hex Hb) as Hshape.
        unfold error_doc in Hshape. cbn [try_except].
        destruct (is_import_error e);
          [rewrite print_error2 | rewrite print_error1]; exact Hshape.
      * cbn. apply (RunDone h usage block import_msg install argv t (Exit c));
          [assumption|assumption|assumption|discriminate].
    + rewrite print_error1. cbn. now apply RunMissing.
    + now apply RunProbeFailed.
Qed.

Lemma script_usage h usage block import_msg install argv :
  (length argv < 2)%nat ->
  script h usage block import_msg install argv
  = ([EvPrint (Json (VDict ["error" |-> VStr usage]))], Exit 1).
Proof.
  intros Hlen.
  destruct (script_shape h usage block import_msg install argv);
    solve [reflexivity | lia].
Qed.

Lemma script_missing h usage block import_msg install argv :
  (2 <= length argv)%nat ->
  path_exists h (Path h (nth 1 argv "")) = Returns false ->
  script h usage block import_msg install argv
  = ([EvExists (Path h (nth 1 argv ""));
      EvPrint (Json (VDict ["error" |->
         VStr ("File not found: " ++ Path h (nth 1 argv ""))]))],
     Exit 1).
Proof.
  intros Hlen Hex.
  destruct (script_shape h usage block import_msg install argv);
    solve [reflexivity | lia | congruence].
Qed.

Lemma script_probe_failed h usage block import_msg install argv e :
  (2 <= length argv)%nat ->
  path_exists h (Path h (nth 1 argv "")) = Raises e ->
  script h usage block import_msg install argv
  = ([EvExists (Path h (nth 1 argv ""))], Raise e).
Proof.
  intros Hlen Hex.
  destruct (script_shape h usage block import_msg install argv)
    as [ | e' _ Hex' | | | ]; solve [lia | congruence].
Qed.

Lemma script_failed h usage block import_msg install argv t e :
  (2 <= length argv)%nat ->
  path_exists h (Path h (nth 1 argv "")) = Returns true ->
  block (Path h (nth 1 argv "")) = (t, Raise e) ->
  script h usage block import_msg install argv
  = (EvExists (Path h (nth 1 argv "")) :: t
       ++ [EvPrint (Json (error_doc import_msg install e))],
     Exit 1).
Proof.
  intros Hlen Hex Hb.
  destruct (script_shape h usage block import_msg install argv)
    as [ | | | t' e' _ _ Hb' | t' r' _ _ Hb' Hr ];
    try solve [lia | congruence];
    rewrite Hb in Hb'; inversion Hb'; subst;
    solve [reflexivity | now destruct (Hr e)].
Qed.

Lemma script_done h usage block import_msg install argv t r :
  (2 <= length argv)%nat ->
  path_exists h (Path h (nth 1 argv "")) = Returns true ->
  block (Path h (nth 1 argv "")) = (t, r) ->
  (forall e, r <> Raise e) ->
  script h usage block import_msg install argv
  = (EvExists (Path h (nth 1 argv "")) :: t, r).
Proof.
  intros Hlen Hex Hb Hr.
  destruct (script_shape h usage block import_msg install argv)
    as [ | | | t' e' _ _ Hb' | t' r' _ _ Hb' _ ];
    try solve [lia | congruence];
    rewrite Hb in Hb'; inversion Hb'; subst;
    solve [reflexivity | now destruct (Hr e')].
Qed.

Lemma fx_encoder_main_script h b argv :
  fx_encoder_detect.main h b argv
  = script h fx_encoder_detect.usage (fx_encoder_detect.try_block h b)
      (fun _ => "fx_encoder not installed") fx_encoder_detect.install argv.
Proof. reflexivity. Qed.

Lemma llm2fx_main_script h b argv :
  llm2fx_detect.main h b argv
  = script h llm2fx_detect.usage (llm2fx_detect.try_block h b)
      (fun e => ("Import failed: " ++ exn_msg e)%string) llm2fx_detect.install argv.
Proof. reflexivity. Qed.

Lemma openamp_main_script h b argv :
  openamp_detect.main h b argv
  = script h openamp_detect.usage (openamp_detect.try_block h b)
      (fun e => ("Import failed: " ++ exn_msg e)%string) openamp_detect.install argv.
Proof. reflexivity. Qed.

Lemma fx_encoder_try_block (h : host) (b : fx_encoder_detect.backend) (p : string) :
  (exists t e, fx_encoder_detect.try_block h b p = (t, Raise e) /\ stdout t = []) \/
  (exists rd items effs,
     fx_encoder_detect.analyze b p = Returns (VDict rd) /\
     dict_get "effects" (VDict []) rd = VDict items /\
     Forall2 (coerced_effect h) items effs /\
     fx_encoder_detect.try_block h b p =
       ([EvImport "fx_encoder"; EvCall "FxEncoder.from_pretrained";
         EvCall "encoder.analyze";
         EvPrint (Json (VDict ["effects" |-> VList effs;
                               "embeddings" |-> dict_get "embeddings" (VList []) rd]))],
        Ok tt)).
Proof.
  unfold fx_encoder_detect.try_block, call.
  destruct (fx_encoder_detect.import_fx_encoder b) as [[]|e].
  2:{ left. do 2 eexists. cbn. split; reflexivity. }
  destruct (fx_encoder_detect.from_pretrained b) as [[]|e].
  2:{ left. do 2 eexists. cbn. split; reflexivity. }
  destruct (fx_encoder_detect.analyze b p) as [result|e].
  2:{ left. do 2 eexists. cbn. split; reflexivity. }
  destruct (fx_encoder_normalize h result)
    as [[e He] | (rd & items & effs & -> & Hraw & HF & He)].
  - left. do 2 eexists. cbn -[fx_encoder_detect.normalize]. rewrite He. cbn.
    split; reflexivity.
  - right. exists rd, items, effs. repeat split; try assumption.
    cbn -[fx_encoder_detect.normalize]. rewrite He. reflexivity.
Qed.

Lemma openamp_try_block (h : host) (b : openamp_detect.backend) (p : string) :
  (exists t e, openamp_detect.try_block h b p = (t, Raise e) /\ stdout t = []) \/
  (exists audio sr rd items effs,
     openamp_detect.librosa_load b p = Returns (audio, sr) /\
     openamp_detect.extract b audio sr = Returns (VDict rd) /\
     dict_get "detected_effects" (VDict []) rd = VDict items /\
     Forall2 (coerced_effect h) items effs /\
     openamp_detect.try_block h b p =
       ([EvImport "librosa"; EvImport "openamp"; EvCall "librosa.load";
         EvCall "FxEncoder.from_pretrained"; EvCall "encoder.extract";
         EvPrint (Json (VDict ["effects" |-> VList effs;
                               "embeddings" |-> dict_get "encodings" (VList []) rd]))],
        Ok tt)).
Proof.
  unfold openamp_detect.try_block, call.
  destruct (openamp_detect.import_librosa b) as [[]|e].
  2:{ left. do 2 eexists. cbn. split; reflexivity. }
  destruct (openamp_detect.import_openamp b) as [[]|e].
  2:{ left. do 2 eexists. cbn. split; reflexivity. }
  destruct (openamp_detect.librosa_load b p) as [[audio sr]|e].
  2:{ left. do 2 eexists. cbn. split; reflexivity. }
  destruct (openamp_detect.from_pretrained b) as [[]|e].
  2:{ left. do 2 eexists. cbn. split; reflexivity. }
  destruct (openamp_detect.extract b audio sr) as [result|e] eqn:Hext.
  2:{ left. do 2 eexists. cbn. rewrite Hext. cbn. split; reflexivity. }
  destruct (openamp_normalize h result)
    as [[e He] | (rd & items & effs & -> & Hraw & HF & He)].
  - left. do 2 eexists. cbn -[openamp_detect.normalize]. rewrite Hext.
    cbn -[openamp_detect.normalize]. rewrite He. cbn. split; reflexivity.
  - right. exists audio, sr, rd, items, effs. repeat split; try assumption.
    cbn -[openamp_detect.normalize]. rewrite Hext.
    cbn -[openamp_detect.normalize]. rewrite He. reflexivity.
Qed.

Lemma stdout_app (t1 t2 : list event) : stdout (t1 ++ t2) = stdout t1 ++ stdout t2.
Proof.
  induction t1 as [|ev t1 IH]; [reflexivity|].
  destruct ev; cbn; rewrite IH; reflexivity.
Qed.


(** Every run of variant B goes one of five ways. *)
Lemma llm2fx_run_cases (h : host) (b : llm2fx_detect.backend) (argv : list string) :
  let p := Path h (nth 1 argv "") in
  let out := run (llm2fx_detect.main h b argv) in
  ((length argv < 2)%nat /\
   out = ([EvPrint (Json (VDict ["error" |-> VStr llm2fx_detect.usage]))], 1%Z))
  \/ ((2 <= length argv)%nat /\
      exists e, path_exists h p = Raises e /\ out = ([EvExists p], 1%Z))
  \/ ((2 <= length argv)%nat /\ path_exists h p = Returns false /\
      out = ([EvExists p;
              EvPrint (Json (VDict ["error" |-> VStr ("File not found: " ++ p)]))],
             1%Z))
  \/ ((2 <= length argv)%nat /\ path_exists h p = Returns true /\
      exists t e,
        llm2fx_detect.try_block h b p = (t, Raise e) /\ stdout t = [] /\
        out = (EvExists p :: t
                 ++ [EvPrint (Json (error_doc
                        (fun e => ("Import failed: " ++ exn_msg e)%string)
                        llm2fx_detect.install e))], 1%Z))
  \/ ((2 <= length argv)%nat /\ path_exists h p = Returns true /\
      exists chain effs,
        llm2fx_chain b p chain /\ Forall2 llm2fx_effect chain effs /\
        out = ([EvExists p; EvImport "llm2fx";
                EvCall "EffectPredictor.from_pretrained";
                EvCall "predictor.analyze_audio";
                EvPrint (Json (VDict ["effects" |-> VList effs;
                                      "embeddings" |-> VList []]))], 0%Z)).
Proof.
  intros p out. subst out. rewrite llm2fx_main_script.
  destruct (Nat.lt_ge_cases (length argv) 2) as [Hlen|Hlen].
  { left. split; [exact Hlen|]. now rewrite script_usage. }
  right. destruct (path_exists h p) as [[|]|e0] eqn:Hex.
  3:{ left. split; [exact Hlen|]. exists e0. split; [reflexivity|].
      now rewrite (script_probe_failed _ _ _ _ _ _ e0 Hlen Hex). }
  2:{ right. left. repeat split; try assumption. now rewrite script_missing. }
  right. right. destruct (llm2fx_try_block h b p)
    as [(t & e & Hb & Hout) | (rd & chain & effs & Han & Hit & HF & Hb)].
  - left. repeat split; try assumption. exists t, e. repeat split; try assumption.
    now rewrite (script_failed _ _ _ _ _ _ t e Hlen Hex Hb).
  - right. repeat split; try assumption. exists chain, effs.
    split; [exists rd; split; assumption|]. split; [exact HF|].
    rewrite (script_done _ _ _ _ _ _ _ _ Hlen Hex Hb); [reflexivity|discriminate].
Qed.

(** Every run of variant A goes one of five ways. *)
Lemma fx_encoder_run_cases (h : host) (b : fx_encoder_detect.backend)
    (argv : list string) :
  let p := Path h (nth 1 argv "") in
  let out := run (fx_encoder_detect.main h b argv) in
  ((length argv < 2)%nat /\
   out = ([EvPrint (Json (VDict ["error" |-> VStr fx_encoder_detect.usage]))], 1%Z))
  \/ ((2 <= length argv)%nat /\
      exists e, path_exists h p = Raises e /\ out = ([EvExists p], 1%Z))
  \/ ((2 <= length argv)%nat /\ path_exists h p = Returns false /\
      out = ([EvExists p;
              EvPrint (Json (VDict ["error" |-> VStr ("File not found: " ++ p)]))],
             1%Z))
  \/ ((2 <= length argv)%nat /\ path_exists h p = Returns true /\
      exists t e,
        fx_encoder_detect.try_block h b p = (t, Raise e) /\ stdout t = [] /\
        out = (EvExists p :: t
                 ++ [EvPrint (Json (error_doc
                        (fun _ => "fx_encoder not installed")
                        fx_encoder_detect.install e))], 1%Z))
  \/ ((2 <= length argv)%nat /\ path_exists h p = Returns true /\
      exists rd items effs,
        fx_encoder_detect.analyze b p = Returns (VDict rd) /\
        dict_get "effects" (VDict []) rd = VDict items /\
        Forall2 (coerced_effect h) items effs /\
        out = ([EvExists p; EvImport "fx_encoder";
                EvCall "FxEncoder.from_pretrained"; EvCall "encoder.analyze";
                EvPrint (Json (VDict ["effects" |-> VList effs;
                   "embeddings" |-> dict_get "embeddings" (VList []) rd]))], 0%Z)).
Proof.
  intros p out. subst out. rewrite fx_encoder_main_script.
  destruct (Nat.lt_ge_cases (length argv) 2) as [Hlen|Hlen].
  { left. split; [exact Hlen|]. now rewrite script_usage. }
  right. destruct (path_exists h p) as [[|]|e0] eqn:Hex.
  3:{ left. split; [exact Hlen|]. exists e0. split; [reflexivity|].
      now rewrite (script_probe_failed _ _ _ _ _ _ e0 Hlen Hex). }
  2:{ right. left. repeat split; try assumption. now rewrite script_missing. }
  right. right. destruct (fx_encoder_try_block h b p)
    as [(t & e & Hb & Hout) | (rd & items & effs & Han & Hraw & HF & Hb)].
  - left. repeat split; try assumption. exists t, e. repeat split; try assumption.
    now rewrite (script_failed _ _ _ _ _ _ t e Hlen Hex Hb).
  - right. repeat split; try assumption. exists rd, items, effs.
    repeat split; try assumption.
    rewrite (script_done _ _ _ _ _ _ _ _ Hlen Hex Hb); [reflexivity|discriminate].
Qed.

(** Every run of variant C goes one of five ways. *)
Lemma openamp_run_cases (h : host) (b : openamp_detect.backend)
    (argv : list string) :
  let p := Path h (nth 1 argv "") in
  let out := run (openamp_detect.main h b argv) in
  ((length argv < 2)%nat /\
   out = ([EvPrint (Json (VDict ["error" |-> VStr openamp_detect.usage]))], 1%Z))
  \/ ((2 <= length argv)%nat /\
      exists e, path_exists h p = Raises e /\ out = ([EvExists p], 1%Z))
  \/ ((2 <= length argv)%nat /\ path_exists h p = Returns false /\
      out = ([EvExists p;
              EvPrint (Json (VDict ["error" |-> VStr ("File not found: " ++ p)]))],
             1%Z))
  \/ ((2 <= length argv)%nat /\ path_exists h p = Returns true /\
      exists t e,
        openamp_detect.try_block h b p = (t, Raise e) /\ stdout t = [] /\
        out = (EvExists p :: t
                 ++ [EvPrint (Json (error_doc
                        (fun e => ("Import failed: " ++ exn_msg e)%string)
                        openamp_detect.install e))], 1%Z))
  \/ ((2 <= length argv)%nat /\ path_exists h p = Returns true /\
      exists audio sr rd items effs,
        openamp_detect.librosa_load b p = Returns (audio, sr) /\
        openamp_detect.extract b audio sr = Returns (VDict rd) /\
        dict_get "detected_effects" (VDict []) rd = VDict items /\
        Forall2 (coerced_effect h) items effs /\
        out = ([EvExists p; EvImport "librosa"; EvImport "openamp";
                EvCall "librosa.load"; EvCall "FxEncoder.from_pretrained";
                EvCall "encoder.extract";
                EvPrint (Json (VDict ["effects" |-> VList effs;
                   "embeddings" |-> dict_get "encodings" (VList []) rd]))], 0%Z)).
Proof.
  intros p out. subst out. rewrite openamp_main_script.
  destruct (Nat.lt_ge_cases (length argv) 2) as [Hlen|Hlen].
  { left. split; [exact Hlen|]. now rewrite script_usage. }
  right. destruct (path_exists h p) as [[|]|e0] eqn:Hex.
  3:{ left. split; [exact Hlen|]. exists e0. split; [reflexivity|].
      now rewrite (script_probe_failed _ _ _ _ _ _ e0 Hlen Hex). }
  2:{ right. left. repeat split; try assumption. now rewrite script_missing. }
  right. right. destruct (openamp_try_block h b p)
    as [(t & e & Hb & Hout)
       | (audio & sr & rd & items & effs & Hld & Hext & Hraw & HF & Hb)].
  - left. repeat split; try assumption. exists t, e. repeat split; try assumption.
    now rewrite (script_failed _ _ _ _ _ _ t e Hlen Hex Hb).
  - right. repeat split; try assumption. exists audio, sr, rd, items, effs.
    repeat split; try assumption.
    rewrite (script_done _ _ _ _ _ _ _ _ Hlen Hex Hb); [reflexivity|discriminate].
Qed.

(* ================================================================== *)
(** ** Helper lemmas: runs whose library answered *)
(* ================================================================== *)

Lemma fx_loop_ok (h : host) (items : list (value * value)) (effs : list value) :
  Forall2 (coerced_effect h) items effs ->
  forall acc,
    for_each items (fx_encoder_detect.append_effect h) acc = ret (acc ++ effs).
Proof.
  induction 1 as [|[name conf] e items effs (x & Hx & ->) _ IH]; intros acc.
  - cbn. now rewrite app_nil_r.
  - cbn [for_each]. unfold fx_encoder_detect.append_effect at 1.
    cbn [snd fst] in *. rewrite Hx, !bind_ret_l, IH, <- app_assoc. reflexivity.
Qed.

Lemma fx_answers_result (v : value) :
  fx_encoder_result wav_host (fx_answers v) ["fx_encoder_detect.py"; "a.wav"] v.
Proof. repeat split. cbn. lia. Qed.

Lemma llm2fx_answers_result (v : value) :
  llm2fx_result wav_host (llm2fx_answers v) ["llm2fx_detect.py"; "a.wav"] v.
Proof. repeat split. cbn. lia. Qed.

Lemma openamp_answers_result (v : value) :
  openamp_result wav_host (openamp_answers v) ["openamp_detect.py"; "a.wav"] v.
Proof.
  repeat split; try (cbn; lia).
  exists (VObj "ndarray" "numpy.ndarray" None), (VInt 44100). split; reflexivity.
Qed.

(** The [try] block once the library has answered. *)
Lemma fx_encoder_try_answer h b p result :
  fx_encoder_detect.import_fx_encoder b = Returns tt ->
  fx_encoder_detect.from_pretrained b = Returns tt ->
  fx_encoder_detect.analyze b p = Returns result ->
  fx_encoder_detect.try_block h b p
  = ([EvImport "fx_encoder"; EvCall "FxEncoder.from_pretrained";
      EvCall "encoder.analyze"] ++ fst (fx_encoder_detect.normalize h result),
     snd (fx_encoder_detect.normalize h result)).
Proof.
  intros Hi Hl Ha. unfold fx_encoder_detect.try_block, call.
  rewrite Hi, Hl, Ha. cbn -[fx_encoder_detect.normalize].
  destruct (fx_encoder_detect.normalize h result) as [t [[]|e|c]]; reflexivity.
Qed.

Lemma llm2fx_try_answer h b p result :
  llm2fx_detect.import_llm2fx b = Returns tt ->
  llm2fx_detect.from_pretrained b = Returns tt ->
  llm2fx_detect.analyze_audio b p = Returns result ->
  llm2fx_detect.try_block h b p
  = ([EvImport "llm2fx"; EvCall "EffectPredictor.from_pretrained";
      EvCall "predictor.analyze_audio"] ++ fst (llm2fx_detect.normalize h result),
     snd (llm2fx_detect.normalize h result)).
Proof.
  intros Hi Hl Ha. unfold llm2fx_detect.try_block, call.
  rewrite Hi, Hl, Ha. cbn -[llm2fx_detect.normalize].
  destruct (llm2fx_detect.normalize h result) as [t [[]|e|c]]; reflexivity.
Qed.

Lemma openamp_try_answer h b p audio sr result :
  openamp_detect.import_librosa b = Returns tt ->
  openamp_detect.import_openamp b = Returns tt ->
  openamp_detect.librosa_load b p = Returns (audio, sr) ->
  openamp_detect.from_pretrained b = Returns tt ->
  openamp_detect.extract b audio sr = Returns result ->
  openamp_detect.try_block h b p
  = ([EvImport "librosa"; EvImport "openamp"; EvCall "librosa.load";
      EvCall "FxEncoder.from_pretrained"; EvCall "encoder.extract"]
       ++ fst (openamp_detect.normalize h result),
     snd (openamp_detect.normalize h result)).
Proof.
  intros Hi1 Hi2 Hld Hl Ha. unfold openamp_detect.try_block, call.
  rewrite Hi1, Hi2, Hld, Hl. cbn -[openamp_detect.normalize].
  rewrite Ha. cbn -[openamp_detect.normalize].
  destruct (openamp_detect.normalize h result) as [t [[]|e|c]]; reflexivity.
Qed.

(** A run whose library answered, by what the normalisation does. *)
Lemma fx_encoder_run_printed h b argv result doc :
  fx_encoder_result h b argv result ->
  fx_encoder_detect.normalize h result = ([EvPrint (Json doc)], Ok tt) ->
  run (fx_encoder_detect.main h b argv)
  = (fx_encoder_steps (Path h (nth 1 argv "")) ++ [EvPrint (Json doc)], 0%Z).
Proof.
  intros (Hlen & Hex & Hi & Hl & Ha) Hn. rewrite fx_encoder_main_script.
  pose proof (fx_encoder_try_answer h b _ result Hi Hl Ha) as Hb.
  rewrite Hn in Hb. cbn [fst snd] in Hb.
  rewrite (script_done _ _ _ _ _ _ _ (Ok tt) Hlen Hex Hb);
    [reflexivity | discriminate].
Qed.

Lemma fx_encoder_run_raised h b argv result e :
  fx_encoder_result h b argv result ->
  fx_encoder_detect.normalize h result = raise e ->
  is_import_error e = false ->
  run (fx_encoder_detect.main h b argv)
  = (fx_encoder_steps (Path h (nth 1 argv ""))
       ++ [EvPrint (Json (VDict ["error" |-> VStr (exn_msg e)]))], 1%Z).
Proof.
  intros (Hlen & Hex & Hi & Hl & Ha) Hn He. rewrite fx_encoder_main_script.
  pose proof (fx_encoder_try_answer h b _ result Hi Hl Ha) as Hb.
  rewrite Hn in Hb. cbn [fst snd raise app] in Hb.
  rewrite (script_failed _ _ _ _ _ _ _ e Hlen Hex Hb).
  unfold error_doc. rewrite He. reflexivity.
Qed.

Lemma llm2fx_run_printed h b argv result doc :
  llm2fx_result h b argv result ->
  llm2fx_detect.normalize h result = ([EvPrint (Json doc)], Ok tt) ->
  run (llm2fx_detect.main h b argv)
  = (llm2fx_steps (Path h (nth 1 argv "")) ++ [EvPrint (Json doc)], 0%Z).
Proof.
  intros (Hlen & Hex & Hi & Hl & Ha) Hn. rewrite llm2fx_main_script.
  pose proof (llm2fx_try_answer h b _ result Hi Hl Ha) as Hb.
  rewrite Hn in Hb. cbn [fst snd] in Hb.
  rewrite (script_done _ _ _ _ _ _ _ (Ok tt) Hlen Hex Hb);
    [reflexivity | discriminate].
Qed.

Lemma llm2fx_run_raised h b argv result e :
  llm2fx_result h b argv result ->
  llm2fx_detect.normalize h result = raise e ->
  is_import_error e = false ->
  run (llm2fx_detect.main h b argv)
  = (llm2fx_steps (Path h (nth 1 argv ""))
       ++ [EvPrint (Json (VDict ["error" |-> VStr (exn_msg e)]))], 1%Z).
Proof.
  intros (Hlen & Hex & Hi & Hl & Ha) Hn He. rewrite llm2fx_main_script.
  pose proof (llm2fx_try_answer h b _ result Hi Hl Ha) as Hb.
  rewrite Hn in Hb. cbn [fst snd raise app] in Hb.
  rewrite (script_failed _ _ _ _ _ _ _ e Hlen Hex Hb).
  unfold error_doc. rewrite He. reflexivity.
Qed.

Lemma openamp_run_printed h b argv result doc :
  openamp_result h b argv result ->
  openamp_detect.normalize h result = ([EvPrint (Json doc)], Ok tt) ->
  run (openamp_detect.main h b argv)
  = (openamp_steps (Path h (nth 1 argv "")) ++ [EvPrint (Json doc)], 0%Z).
Proof.
  intros (Hlen & Hex & Hi1 & Hi2 & Hl & audio & sr & Hld & Ha) Hn.
  rewrite openamp_main_script.
  pose proof (openamp_try_answer h b _ audio sr result Hi1 Hi2 Hld Hl Ha) as Hb.
  rewrite Hn in Hb. cbn [fst snd] in Hb.
  rewrite (script_done _ _ _ _ _ _ _ (Ok tt) Hlen Hex Hb);
    [reflexivity | discriminate].
Qed.

Lemma openamp_run_raised h b argv result e :
  openamp_result h b argv result ->
  openamp_detect.normalize h result = raise e ->
  is_import_error e = false ->
  run (openamp_detect.main h b argv)
  = (openamp_steps (Path h (nth 1 argv ""))
       ++ [EvPrint (Json (VDict ["error" |-> VStr (exn_msg e)]))], 1%Z).
Proof.
  intros (Hlen & Hex & Hi1 & Hi2 & Hl & audio & sr & Hld & Ha) Hn He.
  rewrite openamp_main_script.
  pose proof (openamp_try_answer h b _ audio sr result Hi1 Hi2 Hld Hl Ha) as Hb.
  rewrite Hn in Hb. cbn [fst snd raise app] in Hb.
  rewrite (script_failed _ _ _ _ _ _ _ e Hlen Hex Hb).
  unfold error_doc. rewrite He. reflexivity.
Qed.

(** [float()] and [json.dumps] never raise an [ImportError]. *)
Lemma py_float_not_import h v e :
  py_float h v = raise e -> is_import_error e = false.
Proof.
  destruct v as [|b|n|x|s|l|d|cls tp [x|]]; cbn; try discriminate;
    try (intros [= <-]; reflexivity).
  - destruct (float_of_int n); [discriminate | intros [= <-]; reflexivity].
  - destruct (float_of_str h s); [discriminate | intros [= <-]; reflexivity].
Qed.

Lemma json_error_not_import h v e :
  json_error h v = Some e -> is_import_error e = false.
Proof.
  unfold json_error. destruct (plain v); [discriminate|].
  destruct (json_refuses h v) as [[cls msg]|]; [|discriminate].
  intros [= <-]. reflexivity.
Qed.

(** Items with float confidences map to themselves. *)
Lemma float_items_coerced h items :
  Forall (fun item => is_float (snd item) = true) items ->
  Forall2 (coerced_effect h) items (map named_effect items).
Proof.
  induction 1 as [|[name conf] items Hc _ IH]; cbn [map]; constructor;
    [|exact IH].
  destruct conf; try discriminate. eexists. split; reflexivity.
Qed.

Lemma well_formed_items_coerced h items :
  Forall (fun item => is_str (fst item) = true /\ is_float (snd item) = true)
         items ->
  Forall2 (coerced_effect h) items (map named_effect items).
Proof.
  intros H. apply float_items_coerced. revert H. apply Forall_impl.
  now intros item [_ Hf].
Qed.

(** The loop of A and C stops at the first confidence [float()] refuses. *)
Lemma fx_loop_raise h pre effs name conf post e :
  Forall2 (coerced_effect h) pre effs ->
  py_float h conf = raise e ->
  forall acc,
    for_each (pre ++ (name, conf) :: post) (fx_encoder_detect.append_effect h) acc
    = raise e.
Proof.
  intros HF He.
  induction HF as [|[n c] eff pre effs (x & Hx & ->) _ IH]; intros acc.
  - cbn [app for_each]. unfold fx_encoder_detect.append_effect at 1.
    rewrite He. reflexivity.
  - cbn [app for_each]. unfold fx_encoder_detect.append_effect at 1.
    cbn [snd fst] in *. rewrite Hx, !bind_ret_l. apply IH.
Qed.

(** The loop of B over entries that are all dicts, and its stop at the first
    entry that is none. *)
Lemma llm2fx_loop_ok (ds : list (list (value * value))) :
  forall acc,
    for_each (map VDict ds) llm2fx_detect.append_effect acc
    = ret (acc ++ map chain_effect ds).
Proof.
  induction ds as [|d ds IH]; intros acc.
  - cbn. now rewrite app_nil_r.
  - cbn [map for_each]. rewrite llm2fx_body, bind_ret_l, IH, <- app_assoc.
    reflexivity.
Qed.

Lemma llm2fx_loop_raise (ds : list (list (value * value))) bad post :
  (forall d, bad <> VDict d) ->
  forall acc,
    for_each (map VDict ds ++ bad :: post) llm2fx_detect.append_effect acc
    = raise (AttributeError bad "get").
Proof.
  intros Hbad. induction ds as [|d ds IH]; intros acc.
  - cbn [map app for_each]. unfold llm2fx_detect.append_effect at 1.
    destruct bad; try reflexivity. now destruct (Hbad entries).
  - cbn [map app for_each]. rewrite llm2fx_body, bind_ret_l. apply IH.
Qed.

(** The normalisation of A, C and B by what it meets. *)
Lemma fx_encoder_normalize_printed h rd items effs :
  dict_get "effects" (VDict []) rd = VDict items ->
  Forall2 (coerced_effect h) items effs ->
  json_error h (VDict ["effects" |-> VList effs;
                       "embeddings" |-> dict_get "embeddings" (VList []) rd])
    = None ->
  fx_encoder_detect.normalize h (VDict rd)
  = ([EvPrint (Json (VDict ["effects" |-> VList effs;
        "embeddings" |-> dict_get "embeddings" (VList []) rd]))], Ok tt).
Proof.
  intros Hraw HF Hjs.
  unfold fx_encoder_detect.normalize. cbn [py_get]. rewrite bind_ret_l, Hraw.
  cbn [py_items]. rewrite bind_ret_l, (fx_loop_ok h items effs HF), !bind_ret_l.
  cbn [app]. exact (print_json_accepted h _ Hjs).
Qed.

Lemma fx_encoder_normalize_refused h rd items effs e :
  dict_get "effects" (VDict []) rd = VDict items ->
  Forall2 (coerced_effect h) items effs ->
  json_error h (VDict ["effects" |-> VList effs;
                       "embeddings" |-> dict_get "embeddings" (VList []) rd])
    = Some e ->
  fx_encoder_detect.normalize h (VDict rd) = raise e.
Proof.
  intros Hraw HF Hjs.
  unfold fx_encoder_detect.normalize. cbn [py_get]. rewrite bind_ret_l, Hraw.
  cbn [py_items]. rewrite bind_ret_l, (fx_loop_ok h items effs HF), !bind_ret_l.
  cbn [app]. exact (print_json_refused h _ e Hjs).
Qed.

Lemma openamp_normalize_printed h rd items effs :
  dict_get "detected_effects" (VDict []) rd = VDict items ->
  Forall2 (coerced_effect h) items effs ->
  json_error h (VDict ["effects" |-> VList effs;
                       "embeddings" |-> dict_get "encodings" (VList []) rd])
    = None ->
  openamp_detect.normalize h (VDict rd)
  = ([EvPrint (Json (VDict ["effects" |-> VList effs;
        "embeddings" |-> dict_get "encodings" (VList []) rd]))], Ok tt).
Proof.
  intros Hraw HF Hjs.
  unfold openamp_detect.normalize. cbn [py_get]. rewrite bind_ret_l, Hraw.
  cbn [py_items]. rewrite bind_ret_l.
  change (openamp_detect.append_effect h) with (fx_encoder_detect.append_effect h).
  rewrite (fx_loop_ok h items effs HF), !bind_ret_l.
  cbn [app]. exact (print_json_accepted h _ Hjs).
Qed.

Lemma openamp_normalize_refused h rd items effs e :
  dict_get "detected_effects" (VDict []) rd = VDict items ->
  Forall2 (coerced_effect h) items effs ->
  json_error h (VDict ["effects" |-> VList effs;
                       "embeddings" |-> dict_get "encodings" (VList []) rd])
    = Some e ->
  openamp_detect.normalize h (VDict rd) = raise e.
Proof.
  intros Hraw HF Hjs.
  unfold openamp_detect.normalize. cbn [py_get]. rewrite bind_ret_l, Hraw.
  cbn [py_items]. rewrite bind_ret_l.
  change (openamp_detect.append_effect h) with (fx_encoder_detect.append_effect h).
  rewrite (fx_loop_ok h items effs HF), !bind_ret_l.
  cbn [app]. exact (print_json_refused h _ e Hjs).
Qed.

Lemma llm2fx_normalize_printed h rd ds :
  dict_get "effect_chain" (VList []) rd = VList (map VDict ds) ->
  json_error h (VDict ["effects" |-> VList (map chain_effect ds);
                       "embeddings" |-> VList []]) = None ->
  llm2fx_detect.normalize h (VDict rd)
  = ([EvPrint (Json (VDict ["effects" |-> VList (map chain_effect ds);
                            "embeddings" |-> VList []]))], Ok tt).
Proof.
  intros Hraw Hjs.
  unfold llm2fx_detect.normalize. cbn [py_get]. rewrite bind_ret_l, Hraw.
  cbn [py_iter]. rewrite bind_ret_l, llm2fx_loop_ok, !bind_ret_l.
  cbn [app]. exact (print_json_accepted h _ Hjs).
Qed.

Lemma llm2fx_normalize_bad_entry h rd ds bad post :
  dict_get "effect_chain" (VList []) rd = VList (map VDict ds ++ bad :: post) ->
  (forall d, bad <> VDict d) ->
  llm2fx_detect.normalize h (VDict rd) = raise (AttributeError bad "get").
Proof.
  intros Hraw Hbad.
  unfold llm2fx_detect.normalize. cbn [py_get]. rewrite bind_ret_l, Hraw.
  cbn [py_iter]. rewrite bind_ret_l, (llm2fx_loop_raise ds bad post Hbad).
  reflexivity.
Qed.

Lemma not_dict_get (h : host) (result : value) :
  (forall rd, result <> VDict rd) ->
  fx_encoder_detect.normalize h result = raise (AttributeError result "get")
  /\ llm2fx_detect.normalize h result = raise (AttributeError result "get")
  /\ openamp_detect.normalize h result = raise (AttributeError result "get").
Proof.
  intros Hnd. destruct result; try (repeat split; reflexivity).
  now destruct (Hnd entries).
Qed.

(** What a successful run of variant B has printed. *)
Lemma llm2fx_success (h : host) (b : llm2fx_detect.backend)
    (argv : list string) (t : list event) :
  run (llm2fx_detect.main h b argv) = (t, 0%Z) ->
  exists chain effs,
    llm2fx_chain b (Path h (nth 1 argv "")) chain /\
    Forall2 llm2fx_effect chain effs /\
    stdout t = [VDict ["effects" |-> VList effs; "embeddings" |-> VList []]].
Proof.
  intros Hrun.
  destruct (llm2fx_run_cases h b argv)
    as [[_ H] | [(_ & e0 & _ & H) | [(_ & _ & H)
       | [(_ & _ & t' & e & _ & _ & H) | (_ & _ & chain & effs & Hch & HF & H)]]]];
    rewrite H in Hrun; try discriminate.
  injection Hrun as <-. exists chain, effs. repeat split; assumption.
Qed.

(* ================================================================== *)
(** ** The claims *)
(* ================================================================== *)

(** C9.  Invoked with no path argument ([sys.argv] shorter than two), each of
    the three adapters prints exactly one document, whose only field is
    [error] holding the usage line "Usage: <script> <audio_file>", and exits
    with status 1.  The log holds that print and nothing else: no [install]
    field, no file-system probe, no import, no library call. *)
Theorem usage_error_document :
  forall (h : host) (argv : list string),
    (length argv < 2)%nat ->
    (forall b, run (fx_encoder_detect.main h b argv)
       = ([EvPrint (Json (VDict ["error" |->
             VStr "Usage: fx_encoder_detect.py <audio_file>"]))], 1%Z))
    /\ (forall b, run (llm2fx_detect.main h b argv)
       = ([EvPrint (Json (VDict ["error" |->
             VStr "Usage: llm2fx_detect.py <audio_file>"]))], 1%Z))
    /\ (forall b, run (openamp_detect.main h b argv)
       = ([EvPrint (Json (VDict ["error" |->
             VStr "Usage: openamp_detect.py <audio_file>"]))], 1%Z)).
Proof.
  intros h argv Hlen.
  repeat split; intros b;
    [rewrite fx_encoder_main_script
    |rewrite llm2fx_main_script
    |rewrite openamp_main_script];
    rewrite script_usage by exact Hlen; reflexivity.
Qed.

Lemma usage_error_document_witness :
  (length ["llm2fx_detect.py"] < 2)%nat /\
  run (llm2fx_detect.main empty_host llm2fx_missing ["llm2fx_detect.py"])
  = ([EvPrint (Json (VDict ["error" |->
        VStr "Usage: llm2fx_detect.py <audio_file>"]))], 1%Z).
Proof.
  assert (H : (length ["llm2fx_detect.py"] < 2)%nat) by (cbn; lia).
  split; [exact H|].
  exact (proj1 (proj2 (usage_error_document empty_host ["llm2fx_detect.py"] H))
           llm2fx_missing).
Defined.




(** C6.  When the argument names an existing file and the import of the
    detection library raises an [ImportError], each adapter prints exactly
    one document with the two fields [error] and [install] and exits with
    status 1; nothing of the library is called after the failed import.  For
    variant A the [error] text is exactly "fx_encoder not installed"; for
    variants B and C it is "Import failed: " followed by the text of the
    exception. *)
Theorem import_error_document :
  forall (h : host) (argv : list string) (msg : string),
    (2 <= length argv)%nat ->
    path_exists h (Path h (nth 1 argv "")) = Returns true ->
    let p := Path h (nth 1 argv "") in
    let failed := Raises (mk_exn ImportError msg) in
    (forall b, fx_encoder_detect.import_fx_encoder b = failed ->
       run (fx_encoder_detect.main h b argv)
       = ([EvExists p; EvImport "fx_encoder";
           EvPrint (Json (VDict ["error" |-> VStr "fx_encoder not installed";
                                 "install" |-> VStr fx_encoder_detect.install]))],
          1%Z))
    /\ (forall b, llm2fx_detect.import_llm2fx b = failed ->
       run (llm2fx_detect.main h b argv)
       = ([EvExists p; EvImport "llm2fx";
           EvPrint (Json (VDict ["error" |-> VStr ("Import failed: " ++ msg);
                                 "install" |-> VStr llm2fx_detect.install]))],
          1%Z))
    /\ (forall b, openamp_detect.import_librosa b = failed ->
       run (openamp_detect.main h b argv)
       = ([EvExists p; EvImport "librosa";
           EvPrint (Json (VDict ["error" |-> VStr ("Import failed: " ++ msg);
                                 "install" |-> VStr openamp_detect.install]))],
          1%Z))
    /\ (forall b, openamp_detect.import_librosa b = Returns tt ->
                  openamp_detect.import_openamp b = failed ->
       run (openamp_detect.main h b argv)
       = ([EvExists p; EvImport "librosa"; EvImport "openamp";
           EvPrint (Json (VDict ["error" |-> VStr ("Import failed: " ++ msg);
                                 "install" |-> VStr openamp_detect.install]))],
          1%Z)).
Proof.
  intros h argv msg Hlen Hex p failed.
  repeat split.
  - intros b Himp. rewrite fx_encoder_main_script.
    rewrite (script_failed _ _ _ _ _ _ [EvImport "fx_encoder"]
               (mk_exn ImportError msg) Hlen Hex); [reflexivity|].
    unfold fx_encoder_detect.try_block, call. rewrite Himp. reflexivity.
  - intros b Himp. rewrite llm2fx_main_script.
    rewrite (script_failed _ _ _ _ _ _ [EvImport "llm2fx"]
               (mk_exn ImportError msg) Hlen Hex); [reflexivity|].
    unfold llm2fx_detect.try_block, call. rewrite Himp. reflexivity.
  - intros b Himp. rewrite openamp_main_script.
    rewrite (script_failed _ _ _ _ _ _ [EvImport "librosa"]
               (mk_exn ImportError msg) Hlen Hex); [reflexivity|].
    unfold openamp_detect.try_block, call. rewrite Himp. reflexivity.
  - intros b Hlib Himp. rewrite openamp_main_script.
    rewrite (script_failed _ _ _ _ _ _ [EvImport "librosa"; EvImport "openamp"]
               (mk_exn ImportError msg) Hlen Hex); [reflexivity|].
    unfold openamp_detect.try_block, call. rewrite Hlib, Himp. reflexivity.
Qed.

Lemma import_error_document_witness :
  (2 <= length ["fx_encoder_detect.py"; "a.wav"])%nat /\
  path_exists wav_host (Path wav_host "a.wav") = Returns true /\
  fx_encoder_detect.import_fx_encoder fx_missing
    = Raises (mk_exn ImportError "No module named 'fx_encoder'") /\
  run (fx_encoder_detect.main wav_host fx_missing ["fx_encoder_detect.py"; "a.wav"])
  = ([EvExists "a.wav"; EvImport "fx_encoder";
      EvPrint (Json (VDict ["error" |-> VStr "fx_encoder not installed";
         "install" |-> VStr "git clone https://github.com/SonyResearch/Fx-Encoder_PlusPlus && pip install -r requirements.txt"]))],
     1%Z).
Proof.
  assert (Hlen : (2 <= length ["fx_encoder_detect.py"; "a.wav"])%nat)
    by (cbn; lia).
  assert (Hex : path_exists wav_host
                  (Path wav_host (nth 1 ["fx_encoder_detect.py"; "a.wav"] ""))
                = Returns true) by reflexivity.
  split; [exact Hlen|]. split; [exact Hex|]. split; [reflexivity|].
  exact (proj1 (import_error_document wav_host ["fx_encoder_detect.py"; "a.wav"]
                  "No module named 'fx_encoder'" Hlen Hex)
           fx_missing eq_refl).
Defined.






Lemma coerced_effect_shape (h : host) (item : value * value) (e : value) :
  coerced_effect h item e ->
  exists x, e = VDict ["name" |-> fst item; "confidence" |-> VFloat x].
Proof. intros (x & _ & ->). now exists x. Qed.

Lemma llm2fx_effect_shape (entry e : value) :
  llm2fx_effect entry e ->
  exists d c pr,
    entry = VDict d /\
    e = VDict ["name" |-> dict_get "type" (VStr "unknown") d;
               "confidence" |-> c; "parameters" |-> pr].
Proof. intros (d & -> & ->). do 3 eexists. split; reflexivity. Qed.

(** C3, as the code has it.  Every run that ends with status 0 has printed
    exactly one document; it is a DetectionResult (keys [effects] and
    [embeddings], [effects] an array, no [error] key), and [effects] has one
    element per element of the library's effect collection, in order, each
    with a [name] and a [confidence].  In variants A and C the name is the
    key of the library's mapping and the confidence is a float.  In variant B
    the name is the entry's [type] value, "unknown" when the entry has none.
    So a name is a string whenever the library's own key or [type] is one;
    nothing is said here about the type of variant B's confidence. *)
Theorem successful_document_shape :
  forall (h : host) (argv : list string) (t : list event),
    let p := Path h (nth 1 argv "") in
    (forall b, run (fx_encoder_detect.main h b argv) = (t, 0%Z) ->
       exists rd items doc effs,
         fx_encoder_detect.analyze b p = Returns (VDict rd) /\
         dict_get "effects" (VDict []) rd = VDict items /\
         stdout t = [doc] /\ is_detection_result doc = true /\
         field "effects" doc = Some (VList effs) /\
         Forall2 (fun item e => exists x,
                    e = VDict ["name" |-> fst item; "confidence" |-> VFloat x])
                 items effs)
    /\ (forall b, run (llm2fx_detect.main h b argv) = (t, 0%Z) ->
       exists chain doc effs,
         llm2fx_chain b p chain /\
         stdout t = [doc] /\ is_detection_result doc = true /\
         field "effects" doc = Some (VList effs) /\
         Forall2 (fun entry e => exists d c pr,
                    entry = VDict d /\
                    e = VDict ["name" |-> dict_get "type" (VStr "unknown") d;
                               "confidence" |-> c; "parameters" |-> pr])
                 chain effs)
    /\ (forall b, run (openamp_detect.main h b argv) = (t, 0%Z) ->
       exists audio sr rd items doc effs,
         openamp_detect.librosa_load b p = Returns (audio, sr) /\
         openamp_detect.extract b audio sr = Returns (VDict rd) /\
         dict_get "detected_effects" (VDict []) rd = VDict items /\
         stdout t = [doc] /\ is_detection_result doc = true /\
         field "effects" doc = Some (VList effs) /\
         Forall2 (fun item e => exists x,
                    e = VDict ["name" |-> fst item; "confidence" |-> VFloat x])
                 items effs).
Proof.
  intros h argv t p. split; [|split]; intros b Hrun.
  - destruct (fx_encoder_run_cases h b argv)
      as [[_ H] | [(_ & e0 & _ & H) | [(_ & _ & H)
         | [(_ & _ & t' & e & _ & _ & H) | (_ & _ & rd & items & effs & Han & Hraw & HF & H)]]]];
      rewrite H in Hrun; try discriminate.
    injection Hrun as <-.
    exists rd, items. eexists. exists effs.
    split; [exact Han|]. split; [exact Hraw|].
    split; [reflexivity|]. split; [reflexivity|]. split; [reflexivity|].
    revert HF. apply Forall2_impl, coerced_effect_shape.
  - destruct (llm2fx_run_cases h b argv)
      as [[_ H] | [(_ & e0 & _ & H) | [(_ & _ & H)
         | [(_ & _ & t' & e & _ & _ & H) | (_ & _ & chain & effs & Hch & HF & H)]]]];
      rewrite H in Hrun; try discriminate.
    injection Hrun as <-.
    exists chain. eexists. exists effs.
    split; [exact Hch|].
    split; [reflexivity|]. split; [reflexivity|]. split; [reflexivity|].
    revert HF. apply Forall2_impl, llm2fx_effect_shape.
  - destruct (openamp_run_cases h b argv)
      as [[_ H] | [(_ & e0 & _ & H) | [(_ & _ & H)
         | [(_ & _ & t' & e & _ & _ & H) | (_ & _ & audio & sr & rd & items & effs & Hld & Hext & Hraw & HF & H)]]]];
      rewrite H in Hrun; try discriminate.
    injection Hrun as <-.
    exists audio, sr, rd, items. eexists. exists effs.
    split; [exact Hld|]. split; [exact Hext|]. split; [exact Hraw|].
    split; [reflexivity|]. split; [reflexivity|]. split; [reflexivity|].
    revert HF. apply Forall2_impl, coerced_effect_shape.
Qed.

Lemma successful_document_shape_witness :
  run (openamp_detect.main wav_host (openamp_answers int_confidence_detected)
         ["openamp_detect.py"; "a.wav"])
  = ([EvExists "a.wav"; EvImport "librosa"; EvImport "openamp";
      EvCall "librosa.load"; EvCall "FxEncoder.from_pretrained";
      EvCall "encoder.extract";
      EvPrint (Json (VDict ["effects" |->
                 VList [VDict ["name" |-> VStr "reverb"; "confidence" |-> VFloat 1]];
               "embeddings" |-> VList []]))], 0%Z)
  /\ exists audio sr rd items doc effs,
       openamp_detect.librosa_load (openamp_answers int_confidence_detected) "a.wav"
         = Returns (audio, sr) /\
       openamp_detect.extract (openamp_answers int_confidence_detected) audio sr
         = Returns (VDict rd) /\
       dict_get "detected_effects" (VDict []) rd = VDict items /\
       stdout [EvExists "a.wav"; EvImport "librosa"; EvImport "openamp";
               EvCall "librosa.load"; EvCall "FxEncoder.from_pretrained";
               EvCall "encoder.extract";
               EvPrint (Json (VDict ["effects" |->
                  VList [VDict ["name" |-> VStr "reverb"; "confidence" |-> VFloat 1]];
                  "embeddings" |-> VList []]))] = [doc] /\
       is_detection_result doc = true /\
       field "effects" doc = Some (VList effs) /\
       Forall2 (fun item e => exists x,
                  e = VDict ["name" |-> fst item; "confidence" |-> VFloat x])
               items effs.
Proof.
  split; [reflexivity|].
  exact (proj2 (proj2 (successful_document_shape wav_host
                         ["openamp_detect.py"; "a.wav"] _))
           (openamp_answers int_confidence_detected) eq_refl).
Defined.

(** C3 as worded fails: variant B succeeds on an entry whose [type] is
    [None], and the name of the effect it prints is [None], not a string. *)
Lemma name_is_not_always_a_string :
  run (llm2fx_detect.main wav_host (llm2fx_answers null_type_answer)
         ["llm2fx_detect.py"; "a.wav"])
  = ([EvExists "a.wav"; EvImport "llm2fx";
      EvCall "EffectPredictor.from_pretrained"; EvCall "predictor.analyze_audio";
      EvPrint (Json (VDict ["effects" |->
                 VList [VDict ["name" |-> VNone; "confidence" |-> VFloat 0.5;
                               "parameters" |-> VDict []]];
               "embeddings" |-> VList []]))], 0%Z)
  /\ field "name" (VDict ["name" |-> VNone; "confidence" |-> VFloat 0.5;
                          "parameters" |-> VDict []]) = Some VNone
  /\ is_str VNone = false.
Proof. repeat split. Qed.

(** C8.  The [embeddings] field of the printed document is: in variant A
    the value under [embeddings] of the library's answer, in variant C the
    value under [encodings], each replaced by the empty array when the answer
    has no such key; in variant B always the empty array.  This is what every
    run that ends with status 0 has printed; and the run does end so, with
    the key or without it, whenever the effects of the answer map and
    [json.dumps] accepts the resulting document: a missing key is no
    error. *)
Theorem embeddings_source :
  forall (h : host) (argv : list string),
    let p := Path h (nth 1 argv "") in
    (forall b t, run (fx_encoder_detect.main h b argv) = (t, 0%Z) ->
       exists rd doc,
         fx_encoder_detect.analyze b p = Returns (VDict rd) /\
         stdout t = [doc] /\
         field "embeddings" doc
           = Some (match lookup "embeddings" rd with
                   | Some v => v
                   | None => VList []
                   end))
    /\ (forall b t, run (llm2fx_detect.main h b argv) = (t, 0%Z) ->
       exists doc, stdout t = [doc] /\ field "embeddings" doc = Some (VList []))
    /\ (forall b t, run (openamp_detect.main h b argv) = (t, 0%Z) ->
       exists audio sr rd doc,
         openamp_detect.librosa_load b p = Returns (audio, sr) /\
         openamp_detect.extract b audio sr = Returns (VDict rd) /\
         stdout t = [doc] /\
         field "embeddings" doc
           = Some (match lookup "encodings" rd with
                   | Some v => v
                   | None => VList []
                   end))
    /\ (forall b rd items effs,
          fx_encoder_result h b argv (VDict rd) ->
          dict_get "effects" (VDict []) rd = VDict items ->
          Forall2 (coerced_effect h) items effs ->
          let doc := VDict ["effects" |-> VList effs;
                            "embeddings" |-> match lookup "embeddings" rd with
                                             | Some v => v
                                             | None => VList []
                                             end] in
          json_error h doc = None ->
          run (fx_encoder_detect.main h b argv)
          = (fx_encoder_steps p ++ [EvPrint (Json doc)], 0%Z))
    /\ (forall b rd ds,
          llm2fx_result h b argv (VDict rd) ->
          dict_get "effect_chain" (VList []) rd = VList (map VDict ds) ->
          let doc := VDict ["effects" |-> VList (map chain_effect ds);
                            "embeddings" |-> VList []] in
          json_error h doc = None ->
          run (llm2fx_detect.main h b argv)
          = (llm2fx_steps p ++ [EvPrint (Json doc)], 0%Z))
    /\ (forall b rd items effs,
          openamp_result h b argv (VDict rd) ->
          dict_get "detected_effects" (VDict []) rd = VDict items ->
          Forall2 (coerced_effect h) items effs ->
          let doc := VDict ["effects" |-> VList effs;
                            "embeddings" |-> match lookup "encodings" rd with
                                             | Some v => v
                                             | None => VList []
                                             end] in
          json_error h doc = None ->
          run (openamp_detect.main h b argv)
          = (openamp_steps p ++ [EvPrint (Json doc)], 0%Z)).
Proof.
  intros h argv p. repeat apply conj.
  - intros b t Hrun.
    destruct (fx_encoder_run_cases h b argv)
      as [[_ H] | [(_ & e0 & _ & H) | [(_ & _ & H)
         | [(_ & _ & t' & e & _ & _ & H)
         | (_ & _ & rd & items & effs & Han & Hraw & HF & H)]]]];
      rewrite H in Hrun; try discriminate.
    injection Hrun as <-. exists rd. eexists.
    split; [exact Han|]. split; reflexivity.
  - intros b t Hrun.
    destruct (llm2fx_success h b argv t Hrun) as (chain & effs & _ & _ & ->).
    eexists. split; reflexivity.
  - intros b t Hrun.
    destruct (openamp_run_cases h b argv)
      as [[_ H] | [(_ & e0 & _ & H) | [(_ & _ & H)
         | [(_ & _ & t' & e & _ & _ & H)
         | (_ & _ & audio & sr & rd & items & effs & Hld & Hext & Hraw & HF & H)]]]];
      rewrite H in Hrun; try discriminate.
    injection Hrun as <-. exists audio, sr, rd. eexists.
    split; [exact Hld|]. split; [exact Hext|]. split; reflexivity.
  - intros b rd items effs Hres Hraw HF doc Hjs.
    apply (fx_encoder_run_printed h b argv (VDict rd) _ Hres).
    exact (fx_encoder_normalize_printed h rd items effs Hraw HF Hjs).
  - intros b rd ds Hres Hraw doc Hjs.
    apply (llm2fx_run_printed h b argv (VDict rd) _ Hres).
    exact (llm2fx_normalize_printed h rd ds Hraw Hjs).
  - intros b rd items effs Hres Hraw HF doc Hjs.
    apply (openamp_run_printed h b argv (VDict rd) _ Hres).
    exact (openamp_normalize_printed h rd items effs Hraw HF Hjs).
Qed.

Lemma embeddings_source_witness :
  run (fx_encoder_detect.main wav_host (fx_answers two_effects_answer)
         ["fx_encoder_detect.py"; "a.wav"])
  = ([EvExists "a.wav"; EvImport "fx_encoder";
      EvCall "FxEncoder.from_pretrained"; EvCall "encoder.analyze";
      EvPrint (Json (VDict ["effects" |->
         VList [VDict ["name" |-> VStr "reverb"; "confidence" |-> VFloat 0.5];
                VDict ["name" |-> VStr "delay"; "confidence" |-> VFloat 0.25]];
         "embeddings" |-> VList [VFloat 1; VFloat 2]]))], 0%Z)
  /\ run (openamp_detect.main wav_host (openamp_answers (VDict []))
            ["openamp_detect.py"; "a.wav"])
     = (openamp_steps "a.wav"
          ++ [EvPrint (Json (VDict ["effects" |-> VList [];
                                    "embeddings" |-> VList []]))], 0%Z).
Proof.
  split.
  - refine (proj1 (proj2 (proj2 (proj2
             (embeddings_source wav_host ["fx_encoder_detect.py"; "a.wav"]))))
             (fx_answers two_effects_answer)
             ["effects" |-> VDict ["reverb" |-> VFloat 0.5; "delay" |-> VFloat 0.25];
              "embeddings" |-> VList [VFloat 1; VFloat 2]]
             ["reverb" |-> VFloat 0.5; "delay" |-> VFloat 0.25]
             (map named_effect ["reverb" |-> VFloat 0.5; "delay" |-> VFloat 0.25])
             (fx_answers_result two_effects_answer) eq_refl _ eq_refl).
    apply float_items_coerced. repeat constructor.
  - exact (proj2 (proj2 (proj2 (proj2 (proj2
             (embeddings_source wav_host ["openamp_detect.py"; "a.wav"])))))
             (openamp_answers (VDict [])) [] [] []
             (openamp_answers_result (VDict [])) eq_refl (Forall2_nil _) eq_refl).
Defined.





(** C1 as worded fails: variant B succeeds on an entry without a [params]
    key, and the effect it prints has a [parameters] field, the empty
    mapping. *)
Lemma parameters_are_not_omitted :
  lookup "params" ["type" |-> VStr "reverb"] = None
  /\ run (llm2fx_detect.main wav_host (llm2fx_answers bare_entry_answer)
            ["llm2fx_detect.py"; "a.wav"])
     = ([EvExists "a.wav"; EvImport "llm2fx";
         EvCall "EffectPredictor.from_pretrained"; EvCall "predictor.analyze_audio";
         EvPrint (Json (VDict ["effects" |->
            VList [VDict ["name" |-> VStr "reverb"; "confidence" |-> VFloat 0.5;
                          "parameters" |-> VDict []]];
            "embeddings" |-> VList []]))], 0%Z)
  /\ has_field "parameters"
       (VDict ["name" |-> VStr "reverb"; "confidence" |-> VFloat 0.5;
               "parameters" |-> VDict []]) = true.
Proof. repeat split. Qed.

(** C1, as the code has it.  In variant B every effect has a [parameters]
    field: the value under [params] of its entry when the entry has that
    key, and the empty mapping when it has not.  The loop appends such an
    effect for every entry, and every successful run prints it at the entry's
    position. *)
Theorem parameters_default_to_empty :
  (forall (d : list (value * value)) (acc : list value),
     llm2fx_detect.append_effect acc (VDict d)
     = ret (acc ++ [VDict ["name" |-> dict_get "type" (VStr "unknown") d;
                           "confidence" |-> dict_get "confidence" (VFloat 0.5) d;
                           "parameters" |-> match lookup "params" d with
                                            | Some v => v
                                            | None => VDict []
                                            end]]))
  /\ (forall h b argv t,
        run (llm2fx_detect.main h b argv) = (t, 0%Z) ->
        exists chain effs,
          llm2fx_chain b (Path h (nth 1 argv "")) chain /\
          stdout t = [VDict ["effects" |-> VList effs; "embeddings" |-> VList []]] /\
          Forall2 (fun entry e =>
                     exists d, entry = VDict d /\
                       field "parameters" e
                       = Some (match lookup "params" d with
                               | Some v => v
                               | None => VDict []
                               end))
                  chain effs).
Proof.
  split.
  - intros d acc. exact (llm2fx_body d acc).
  - intros h b argv t Hrun.
    destruct (llm2fx_success h b argv t Hrun) as (chain & effs & Hch & HF & Hout).
    exists chain, effs. split; [exact Hch|]. split; [exact Hout|].
    revert HF. apply Forall2_impl.
    intros entry e (d & -> & ->). exists d. split; reflexivity.
Qed.

Lemma parameters_default_to_empty_witness :
  run (llm2fx_detect.main wav_host (llm2fx_answers reverb_answer)
         ["llm2fx_detect.py"; "a.wav"])
  = ([EvExists "a.wav"; EvImport "llm2fx";
      EvCall "EffectPredictor.from_pretrained"; EvCall "predictor.analyze_audio";
      EvPrint (Json (VDict ["effects" |->
         VList [VDict ["name" |-> VStr "reverb";
                       "confidence" |-> VFloat 0.5;
                       "parameters" |-> VDict ["decay" |->
                          VFloat 0x1.3333333333333p-2]]];
         "embeddings" |-> VList []]))], 0%Z)
  /\ exists chain effs,
       llm2fx_chain (llm2fx_answers reverb_answer) "a.wav" chain /\
       stdout [EvExists "a.wav"; EvImport "llm2fx";
               EvCall "EffectPredictor.from_pretrained";
               EvCall "predictor.analyze_audio";
               EvPrint (Json (VDict ["effects" |->
                  VList [VDict ["name" |-> VStr "reverb";
                                "confidence" |-> VFloat 0.5;
                                "parameters" |-> VDict ["decay" |->
                                   VFloat 0x1.3333333333333p-2]]];
                  "embeddings" |-> VList []]))]
       = [VDict ["effects" |-> VList effs; "embeddings" |-> VList []]] /\
       Forall2 (fun entry e =>
                  exists d, entry = VDict d /\
                    field "parameters" e
                    = Some (match lookup "params" d with
                            | Some v => v
                            | None => VDict []
                            end))
               chain effs.
Proof.
  split; [reflexivity|].
  exact (proj2 parameters_default_to_empty wav_host (llm2fx_answers reverb_answer)
           ["llm2fx_detect.py"; "a.wav"] _ eq_refl).
Defined.

(** C2 at its failing input.  The library of variant B answers with an entry
    whose confidence is the integer 1: the run succeeds and prints that
    integer as it came, where variants A and C, given the same confidence
    for the same effect, print the float 1.0. *)
Theorem llm2fx_confidence_is_not_coerced :
  run (llm2fx_detect.main wav_host (llm2fx_answers int_confidence_answer)
         ["llm2fx_detect.py"; "a.wav"])
  = ([EvExists "a.wav"; EvImport "llm2fx";
      EvCall "EffectPredictor.from_pretrained"; EvCall "predictor.analyze_audio";
      EvPrint (Json (VDict ["effects" |->
         VList [VDict ["name" |-> VStr "reverb"; "confidence" |-> VInt 1;
                       "parameters" |-> VDict []]];
         "embeddings" |-> VList []]))], 0%Z)
  /\ is_float (VInt 1) = false
  /\ run (fx_encoder_detect.main wav_host (fx_answers int_confidence_mapping)
            ["fx_encoder_detect.py"; "a.wav"])
     = ([EvExists "a.wav"; EvImport "fx_encoder";
         EvCall "FxEncoder.from_pretrained"; EvCall "encoder.analyze";
         EvPrint (Json (VDict ["effects" |->
            VList [VDict ["name" |-> VStr "reverb"; "confidence" |-> VFloat 1]];
            "embeddings" |-> VList []]))], 0%Z)
  /\ run (openamp_detect.main wav_host (openamp_answers int_confidence_detected)
            ["openamp_detect.py"; "a.wav"])
     = ([EvExists "a.wav"; EvImport "librosa"; EvImport "openamp";
         EvCall "librosa.load"; EvCall "FxEncoder.from_pretrained";
         EvCall "encoder.extract";
         EvPrint (Json (VDict ["effects" |->
            VList [VDict ["name" |-> VStr "reverb"; "confidence" |-> VFloat 1]];
            "embeddings" |-> VList []]))], 0%Z).
Proof. repeat split. Qed.

(* ================================================================== *)
(** ** Further properties of the three scripts *)
(* ================================================================== *)

(** X1.  When the analysis call of the library raises an exception that is
    not an [ImportError] (after the file was found, the imports succeeded
    and the model was loaded), the adapter prints one document whose only
    field is [error], holding the text of the exception, and exits with
    status 1: no [install] field, no DetectionResult. *)
Theorem runtime_error_document :
  forall (h : host) (argv : list string) (e : exn),
    (2 <= length argv)%nat ->
    path_exists h (Path h (nth 1 argv "")) = Returns true ->
    is_import_error e = false ->
    let p := Path h (nth 1 argv "") in
    let report := [EvPrint (Json (VDict ["error" |-> VStr (exn_msg e)]))] in
    (forall b,
       fx_encoder_detect.import_fx_encoder b = Returns tt ->
       fx_encoder_detect.from_pretrained b = Returns tt ->
       fx_encoder_detect.analyze b p = Raises e ->
       run (fx_encoder_detect.main h b argv)
       = (fx_encoder_steps p ++ report, 1%Z))
    /\ (forall b,
       llm2fx_detect.import_llm2fx b = Returns tt ->
       llm2fx_detect.from_pretrained b = Returns tt ->
       llm2fx_detect.analyze_audio b p = Raises e ->
       run (llm2fx_detect.main h b argv)
       = (llm2fx_steps p ++ report, 1%Z))
    /\ (forall b audio sr,
       openamp_detect.import_librosa b = Returns tt ->
       openamp_detect.import_openamp b = Returns tt ->
       openamp_detect.librosa_load b p = Returns (audio, sr) ->
       openamp_detect.from_pretrained b = Returns tt ->
       openamp_detect.extract b audio sr = Raises e ->
       run (openamp_detect.main h b argv)
       = (openamp_steps p ++ report, 1%Z)).
Proof.
  intros h argv e Hlen Hex He p report. repeat apply conj.
  - intros b Hi Hl Ha. rewrite fx_encoder_main_script.
    rewrite (script_failed _ _ _ _ _ _
               [EvImport "fx_encoder"; EvCall "FxEncoder.from_pretrained";
                EvCall "encoder.analyze"] e Hlen Hex).
    + unfold error_doc. rewrite He. reflexivity.
    + unfold fx_encoder_detect.try_block, call. fold p.
      rewrite Hi, Hl, Ha. reflexivity.
  - intros b Hi Hl Ha. rewrite llm2fx_main_script.
    rewrite (script_failed _ _ _ _ _ _
               [EvImport "llm2fx"; EvCall "EffectPredictor.from_pretrained";
                EvCall "predictor.analyze_audio"] e Hlen Hex).
    + unfold error_doc. rewrite He. reflexivity.
    + unfold llm2fx_detect.try_block, call. fold p.
      rewrite Hi, Hl, Ha. reflexivity.
  - intros b audio sr Hi1 Hi2 Hld Hl Ha. rewrite openamp_main_script.
    rewrite (script_failed _ _ _ _ _ _
               [EvImport "librosa"; EvImport "openamp"; EvCall "librosa.load";
                EvCall "FxEncoder.from_pretrained"; EvCall "encoder.extract"]
               e Hlen Hex).
    + unfold error_doc. rewrite He. reflexivity.
    + unfold openamp_detect.try_block, call. fold p.
      rewrite Hi1, Hi2, Hld, Hl. cbn. rewrite Ha. reflexivity.
Qed.

Lemma runtime_error_document_witness :
  (2 <= length ["fx_encoder_detect.py"; "a.wav"])%nat /\
  path_exists wav_host "a.wav" = Returns true /\
  is_import_error bad_audio = false /\
  run (fx_encoder_detect.main wav_host (fx_analysis_fails bad_audio)
         ["fx_encoder_detect.py"; "a.wav"])
  = ([EvExists "a.wav"; EvImport "fx_encoder";
      EvCall "FxEncoder.from_pretrained"; EvCall "encoder.analyze";
      EvPrint (Json (VDict ["error" |-> VStr "unsupported audio format"]))], 1%Z).
Proof.
  assert (Hlen : (2 <= length ["fx_encoder_detect.py"; "a.wav"])%nat)
    by (cbn; lia).
  split; [exact Hlen|]. split; [reflexivity|]. split; [reflexivity|].
  exact (proj1 (runtime_error_document wav_host ["fx_encoder_detect.py"; "a.wav"]
                  bad_audio Hlen eq_refl eq_refl)
           (fx_analysis_fails bad_audio) eq_refl eq_refl eq_refl).
Defined.

(** X2.  An [ImportError] raised after the import statements, while the
    model is loaded, is handled like a failed import: the adapter prints the
    [error] and [install] fields and exits with status 1.  Variant A then
    reports "fx_encoder not installed" whatever the exception says; variants
    B and C report "Import failed: " followed by its text. *)
Theorem late_import_error_document :
  forall (h : host) (argv : list string) (msg : string),
    (2 <= length argv)%nat ->
    path_exists h (Path h (nth 1 argv "")) = Returns true ->
    let p := Path h (nth 1 argv "") in
    let failed := Raises (mk_exn ImportError msg) in
    (forall b,
       fx_encoder_detect.import_fx_encoder b = Returns tt ->
       fx_encoder_detect.from_pretrained b = failed ->
       run (fx_encoder_detect.main h b argv)
       = ([EvExists p; EvImport "fx_encoder"; EvCall "FxEncoder.from_pretrained";
           EvPrint (Json (VDict ["error" |-> VStr "fx_encoder not installed";
                                 "install" |-> VStr fx_encoder_detect.install]))],
          1%Z))
    /\ (forall b,
       llm2fx_detect.import_llm2fx b = Returns tt ->
       llm2fx_detect.from_pretrained b = failed ->
       run (llm2fx_detect.main h b argv)
       = ([EvExists p; EvImport "llm2fx";
           EvCall "EffectPredictor.from_pretrained";
           EvPrint (Json (VDict ["error" |-> VStr ("Import failed: " ++ msg);
                                 "install" |-> VStr llm2fx_detect.install]))],
          1%Z))
    /\ (forall b audio sr,
       openamp_detect.import_librosa b = Returns tt ->
       openamp_detect.import_openamp b = Returns tt ->
       openamp_detect.librosa_load b p = Returns (audio, sr) ->
       openamp_detect.from_pretrained b = failed ->
       run (openamp_detect.main h b argv)
       = ([EvExists p; EvImport "librosa"; EvImport "openamp";
           EvCall "librosa.load"; EvCall "FxEncoder.from_pretrained";
           EvPrint (Json (VDict ["error" |-> VStr ("Import failed: " ++ msg);
                                 "install" |-> VStr openamp_detect.install]))],
          1%Z)).
Proof.
  intros h argv msg Hlen Hex p failed. repeat apply conj.
  - intros b Hi Hl. rewrite fx_encoder_main_script.
    rewrite (script_failed _ _ _ _ _ _
               [EvImport "fx_encoder"; EvCall "FxEncoder.from_pretrained"]
               (mk_exn ImportError msg) Hlen Hex); [reflexivity|].
    unfold fx_encoder_detect.try_block, call. rewrite Hi, Hl. reflexivity.
  - intros b Hi Hl. rewrite llm2fx_main_script.
    rewrite (script_failed _ _ _ _ _ _
               [EvImport "llm2fx"; EvCall "EffectPredictor.from_pretrained"]
               (mk_exn ImportError msg) Hlen Hex); [reflexivity|].
    unfold llm2fx_detect.try_block, call. rewrite Hi, Hl. reflexivity.
  - intros b audio sr Hi1 Hi2 Hld Hl. rewrite openamp_main_script.
    rewrite (script_failed _ _ _ _ _ _
               [EvImport "librosa"; EvImport "openamp"; EvCall "librosa.load";
                EvCall "FxEncoder.from_pretrained"]
               (mk_exn ImportError msg) Hlen Hex); [reflexivity|].
    unfold openamp_detect.try_block, call. fold p.
    rewrite Hi1, Hi2, Hld, Hl. reflexivity.
Qed.

Lemma late_import_error_document_witness :
  (2 <= length ["fx_encoder_detect.py"; "a.wav"])%nat /\
  path_exists wav_host "a.wav" = Returns true /\
  run (fx_encoder_detect.main wav_host (fx_loading_fails (no_module "torch"))
         ["fx_encoder_detect.py"; "a.wav"])
  = ([EvExists "a.wav"; EvImport "fx_encoder"; EvCall "FxEncoder.from_pretrained";
      EvPrint (Json (VDict ["error" |-> VStr "fx_encoder not installed";
                            "install" |-> VStr fx_encoder_detect.install]))],
     1%Z).
Proof.
  assert (Hlen : (2 <= length ["fx_encoder_detect.py"; "a.wav"])%nat)
    by (cbn; lia).
  split; [exact Hlen|]. split; [reflexivity|].
  exact (proj1 (late_import_error_document wav_host
                  ["fx_encoder_detect.py"; "a.wav"] "No module named 'torch'"
                  Hlen eq_refl)
           (fx_loading_fails (no_module "torch")) eq_refl eq_refl).
Defined.

(** X3.  In every run whose existence check answers, the one document
    printed has an [install] field exactly when the [try] block was entered
    and raised an [ImportError]: usage errors, missing files, other
    exceptions (of class [Exception]) and DetectionResults never carry the
    field. *)
Theorem install_field_iff_import_error :
  forall (h : host) (argv : list string),
    probe_returns h argv ->
    let p := Path h (nth 1 argv "") in
    (forall b, exists doc,
       stdout (fst (run (fx_encoder_detect.main h b argv))) = [doc] /\
       (has_field "install" doc = true <->
        (2 <= length argv)%nat /\ path_exists h p = Returns true /\
        exists t e, fx_encoder_detect.try_block h b p = (t, Raise e) /\
                    is_import_error e = true))
    /\ (forall b, exists doc,
       stdout (fst (run (llm2fx_detect.main h b argv))) = [doc] /\
       (has_field "install" doc = true <->
        (2 <= length argv)%nat /\ path_exists h p = Returns true /\
        exists t e, llm2fx_detect.try_block h b p = (t, Raise e) /\
                    is_import_error e = true))
    /\ (forall b, exists doc,
       stdout (fst (run (openamp_detect.main h b argv))) = [doc] /\
       (has_field "install" doc = true <->
        (2 <= length argv)%nat /\ path_exists h p = Returns true /\
        exists t e, openamp_detect.try_block h b p = (t, Raise e) /\
                    is_import_error e = true)).
Proof.
  intros h argv Hprobe p. subst p. unfold probe_returns in Hprobe.
  repeat apply conj; intros b.
  - destruct (fx_encoder_run_cases h b argv)
      as [[Hlen H] | [(Hlen & e0 & He0 & H) | [(Hlen & Hex & H)
         | [(Hlen & Hex & t & e & Hb & Ht & H) | (Hlen & Hex & rd & items & effs & _ & _ & _ & H)]]]];
      try (rewrite H; cbn [fst stdout doc_of]).
    + eexists. split; [reflexivity|]. split; [discriminate|]. intros [? _]. lia.
    + destruct (Hprobe Hlen) as [found Hfound]. congruence.
    + eexists. split; [reflexivity|]. split; [discriminate|].
      intros (_ & Hex' & _). congruence.
    + rewrite stdout_app, Ht. eexists. split; [reflexivity|].
      unfold error_doc. split.
      * intros Hin. repeat split; try assumption. exists t, e. split; [exact Hb|].
        destruct (is_import_error e); [reflexivity | discriminate].
      * intros (_ & _ & t' & e' & Hb' & He').
        rewrite Hb in Hb'. injection Hb' as _ <-. rewrite He'. reflexivity.
    + eexists. split; [reflexivity|]. split; [discriminate|].
      intros (_ & _ & t' & e' & Hb' & _).
      pose proof (script_failed h fx_encoder_detect.usage
                    (fx_encoder_detect.try_block h b)
                    (fun _ => "fx_encoder not installed")
                    fx_encoder_detect.install argv t' e' Hlen Hex Hb') as Hf.
      rewrite <- fx_encoder_main_script in Hf.
      apply (f_equal (fun m => status (snd m))) in Hf.
      apply (f_equal snd) in H. cbn in H, Hf. congruence.
  - destruct (llm2fx_run_cases h b argv)
      as [[Hlen H] | [(Hlen & e0 & He0 & H) | [(Hlen & Hex & H)
         | [(Hlen & Hex & t & e & Hb & Ht & H) | (Hlen & Hex & chain & effs & _ & _ & H)]]]];
      try (rewrite H; cbn [fst stdout doc_of]).
    + eexists. split; [reflexivity|]. split; [discriminate|]. intros [? _]. lia.
    + destruct (Hprobe Hlen) as [found Hfound]. congruence.
    + eexists. split; [reflexivity|]. split; [discriminate|].
      intros (_ & Hex' & _). congruence.
    + rewrite stdout_app, Ht. eexists. split; [reflexivity|].
      unfold error_doc. split.
      * intros Hin. repeat split; try assumption. exists t, e. split; [exact Hb|].
        destruct (is_import_error e); [reflexivity | discriminate].
      * intros (_ & _ & t' & e' & Hb' & He').
        rewrite Hb in Hb'. injection Hb' as _ <-. rewrite He'. reflexivity.
    + eexists. split; [reflexivity|]. split; [discriminate|].
      intros (_ & _ & t' & e' & Hb' & _).
      pose proof (script_failed h llm2fx_detect.usage
                    (llm2fx_detect.try_block h b)
                    (fun e => ("Import failed: " ++ exn_msg e)%string)
                    llm2fx_detect.install argv t' e' Hlen Hex Hb') as Hf.
      rewrite <- llm2fx_main_script in Hf.
      apply (f_equal (fun m => status (snd m))) in Hf.
      apply (f_equal snd) in H. cbn in H, Hf. congruence.
  - destruct (openamp_run_cases h b argv)
      as [[Hlen H] | [(Hlen & e0 & He0 & H) | [(Hlen & Hex & H)
         | [(Hlen & Hex & t & e & Hb & Ht & H) | (Hlen & Hex & audio & sr & rd & items & effs & _ & _ & _ & _ & H)]]]];
      try (rewrite H; cbn [fst stdout doc_of]).
    + eexists. split; [reflexivity|]. split; [discriminate|]. intros [? _]. lia.
    + destruct (Hprobe Hlen) as [found Hfound]. congruence.
    + eexists. split; [reflexivity|]. split; [discriminate|].
      intros (_ & Hex' & _). congruence.
    + rewrite stdout_app, Ht. eexists. split; [reflexivity|].
      unfold error_doc. split.
      * intros Hin. repeat split; try assumption. exists t, e. split; [exact Hb|].
        destruct (is_import_error e); [reflexivity | discriminate].
      * intros (_ & _ & t' & e' & Hb' & He').
        rewrite Hb in Hb'. injection Hb' as _ <-. rewrite He'. reflexivity.
    + eexists. split; [reflexivity|]. split; [discriminate|].
      intros (_ & _ & t' & e' & Hb' & _).
      pose proof (script_failed h openamp_detect.usage
                    (openamp_detect.try_block h b)
                    (fun e => ("Import failed: " ++ exn_msg e)%string)
                    openamp_detect.install argv t' e' Hlen Hex Hb') as Hf.
      rewrite <- openamp_main_script in Hf.
      apply (f_equal (fun m => status (snd m))) in Hf.
      apply (f_equal snd) in H. cbn in H, Hf. congruence.
Qed.

Lemma install_field_iff_import_error_witness :
  probe_returns wav_host ["fx_encoder_detect.py"; "a.wav"] /\
  exists doc,
    stdout (fst (run (fx_encoder_detect.main wav_host fx_missing
                        ["fx_encoder_detect.py"; "a.wav"]))) = [doc] /\
    (has_field "install" doc = true <->
     (2 <= length ["fx_encoder_detect.py"; "a.wav"])%nat /\
     path_exists wav_host (Path wav_host "a.wav") = Returns true /\
     exists t e, fx_encoder_detect.try_block wav_host fx_missing
                   (Path wav_host "a.wav") = (t, Raise e) /\
                 is_import_error e = true).
Proof.
  assert (Hprobe : probe_returns wav_host ["fx_encoder_detect.py"; "a.wav"])
    by (intros _; exists true; reflexivity).
  split; [exact Hprobe|].
  exact (proj1 (install_field_iff_import_error wav_host
                  ["fx_encoder_detect.py"; "a.wav"] Hprobe) fx_missing).
Defined.

(** X4.  Variants A and C on an answer of the documented shape: when the
    effect mapping of the answer (empty if the key is missing) has string
    names and float confidences, and [json.dumps] accepts the resulting
    document, the run ends with status 0 and prints one effect per item of
    the mapping, in the order of the mapping, with the name and the
    confidence unchanged, and the embeddings as they came.  Nothing is
    filtered, merged or sorted. *)
Theorem mapping_answer_is_printed_in_order :
  forall (h : host) (argv : list string) (rd items : list (value * value)),
    Forall (fun item => is_str (fst item) = true /\ is_float (snd item) = true)
           items ->
    let p := Path h (nth 1 argv "") in
    (forall b,
       fx_encoder_result h b argv (VDict rd) ->
       dict_get "effects" (VDict []) rd = VDict items ->
       let doc := VDict ["effects" |-> VList (map named_effect items);
                         "embeddings" |-> dict_get "embeddings" (VList []) rd] in
       json_error h doc = None ->
       run (fx_encoder_detect.main h b argv)
       = (fx_encoder_steps p ++ [EvPrint (Json doc)], 0%Z))
    /\ (forall b,
       openamp_result h b argv (VDict rd) ->
       dict_get "detected_effects" (VDict []) rd = VDict items ->
       let doc := VDict ["effects" |-> VList (map named_effect items);
                         "embeddings" |-> dict_get "encodings" (VList []) rd] in
       json_error h doc = None ->
       run (openamp_detect.main h b argv)
       = (openamp_steps p ++ [EvPrint (Json doc)], 0%Z)).
Proof.
  intros h argv rd items Hitems p.
  pose proof (well_formed_items_coerced h items Hitems) as HF.
  split; intros b Hres Hraw doc Hjs.
  - apply (fx_encoder_run_printed h b argv (VDict rd) _ Hres).
    exact (fx_encoder_normalize_printed h rd items _ Hraw HF Hjs).
  - apply (openamp_run_printed h b argv (VDict rd) _ Hres).
    exact (openamp_normalize_printed h rd items _ Hraw HF Hjs).
Qed.

Lemma mapping_answer_is_printed_in_order_witness :
  run (fx_encoder_detect.main wav_host (fx_answers two_effects_answer)
         ["fx_encoder_detect.py"; "a.wav"])
  = ([EvExists "a.wav"; EvImport "fx_encoder";
      EvCall "FxEncoder.from_pretrained"; EvCall "encoder.analyze";
      EvPrint (Json (VDict ["effects" |->
         VList [VDict ["name" |-> VStr "reverb"; "confidence" |-> VFloat 0.5];
                VDict ["name" |-> VStr "delay"; "confidence" |-> VFloat 0.25]];
         "embeddings" |-> VList [VFloat 1; VFloat 2]]))], 0%Z).
Proof.
  refine (proj1 (mapping_answer_is_printed_in_order wav_host
                   ["fx_encoder_detect.py"; "a.wav"]
                   ["effects" |-> VDict ["reverb" |-> VFloat 0.5;
                                         "delay" |-> VFloat 0.25];
                    "embeddings" |-> VList [VFloat 1; VFloat 2]]
                   ["reverb" |-> VFloat 0.5; "delay" |-> VFloat 0.25] _)
            (fx_answers two_effects_answer)
            (fx_answers_result two_effects_answer) eq_refl eq_refl).
  repeat constructor.
Defined.

(** X5.  Variant B on a chain of mappings: when the [effect_chain] of the
    answer is a list of dicts and [json.dumps] accepts the resulting
    document, the run ends with status 0 and prints one effect per entry, in
    the order of the chain, each with the entry's [type], [confidence] and
    [params] or their defaults ("unknown", 0.5, the empty mapping), and an
    empty [embeddings]. *)
Theorem chain_answer_is_printed_in_order :
  forall (h : host) (b : llm2fx_detect.backend) (argv : list string)
         (rd : list (value * value)) (ds : list (list (value * value))),
    llm2fx_result h b argv (VDict rd) ->
    dict_get "effect_chain" (VList []) rd = VList (map VDict ds) ->
    let doc := VDict ["effects" |-> VList (map chain_effect ds);
                      "embeddings" |-> VList []] in
    json_error h doc = None ->
    run (llm2fx_detect.main h b argv)
    = (llm2fx_steps (Path h (nth 1 argv "")) ++ [EvPrint (Json doc)], 0%Z).
Proof.
  intros h b argv rd ds Hres Hraw doc Hjs.
  apply (llm2fx_run_printed h b argv (VDict rd) _ Hres).
  exact (llm2fx_normalize_printed h rd ds Hraw Hjs).
Qed.

Lemma chain_answer_is_printed_in_order_witness :
  run (llm2fx_detect.main wav_host (llm2fx_answers two_entries_answer)
         ["llm2fx_detect.py"; "a.wav"])
  = ([EvExists "a.wav"; EvImport "llm2fx";
      EvCall "EffectPredictor.from_pretrained"; EvCall "predictor.analyze_audio";
      EvPrint (Json (VDict ["effects" |->
         VList [VDict ["name" |-> VStr "reverb"; "confidence" |-> VFloat 0.75;
                       "parameters" |-> VDict []];
                VDict ["name" |-> VStr "delay"; "confidence" |-> VFloat 0.5;
                       "parameters" |-> VDict []]];
         "embeddings" |-> VList []]))], 0%Z).
Proof.
  exact (chain_answer_is_printed_in_order wav_host
           (llm2fx_answers two_entries_answer) ["llm2fx_detect.py"; "a.wav"]
           ["effect_chain" |->
              VList [VDict ["type" |-> VStr "reverb"; "confidence" |-> VFloat 0.75];
                     VDict ["type" |-> VStr "delay"]]]
           [["type" |-> VStr "reverb"; "confidence" |-> VFloat 0.75];
            ["type" |-> VStr "delay"]]
           (llm2fx_answers_result two_entries_answer) eq_refl eq_refl).
Defined.

(** X6.  An answer without the effect collection is no error: when the
    answer is a mapping without [effects] (A), [effect_chain] (B) or
    [detected_effects] (C), the run ends with status 0 and prints an empty
    [effects] array; in A and C provided [json.dumps] accepts the document,
    which carries the embeddings of the answer, in B always. *)
Theorem missing_effects_key_gives_empty_array :
  forall (h : host) (argv : list string) (rd : list (value * value)),
    let p := Path h (nth 1 argv "") in
    (forall b,
       fx_encoder_result h b argv (VDict rd) ->
       lookup "effects" rd = None ->
       let doc := VDict ["effects" |-> VList [];
                         "embeddings" |-> dict_get "embeddings" (VList []) rd] in
       json_error h doc = None ->
       run (fx_encoder_detect.main h b argv)
       = (fx_encoder_steps p ++ [EvPrint (Json doc)], 0%Z))
    /\ (forall b,
       llm2fx_result h b argv (VDict rd) ->
       lookup "effect_chain" rd = None ->
       run (llm2fx_detect.main h b argv)
       = (llm2fx_steps p
            ++ [EvPrint (Json (VDict ["effects" |-> VList [];
                                      "embeddings" |-> VList []]))], 0%Z))
    /\ (forall b,
       openamp_result h b argv (VDict rd) ->
       lookup "detected_effects" rd = None ->
       let doc := VDict ["effects" |-> VList [];
                         "embeddings" |-> dict_get "encodings" (VList []) rd] in
       json_error h doc = None ->
       run (openamp_detect.main h b argv)
       = (openamp_steps p ++ [EvPrint (Json doc)], 0%Z)).
Proof.
  intros h argv rd p. repeat apply conj.
  - intros b Hres Hkey doc Hjs.
    apply (fx_encoder_run_printed h b argv (VDict rd) _ Hres).
    apply (fx_encoder_normalize_printed h rd [] []);
      [unfold dict_get; now rewrite Hkey | constructor | exact Hjs].
  - intros b Hres Hkey.
    apply (llm2fx_run_printed h b argv (VDict rd) _ Hres).
    apply (llm2fx_normalize_printed h rd []);
      [unfold dict_get; now rewrite Hkey | reflexivity].
  - intros b Hres Hkey doc Hjs.
    apply (openamp_run_printed h b argv (VDict rd) _ Hres).
    apply (openamp_normalize_printed h rd [] []);
      [unfold dict_get; now rewrite Hkey | constructor | exact Hjs].
Qed.

Lemma missing_effects_key_gives_empty_array_witness :
  lookup "effects" ["embeddings" |-> VList [VFloat 1]] = None /\
  run (fx_encoder_detect.main wav_host (fx_answers embeddings_only_answer)
         ["fx_encoder_detect.py"; "a.wav"])
  = ([EvExists "a.wav"; EvImport "fx_encoder";
      EvCall "FxEncoder.from_pretrained"; EvCall "encoder.analyze";
      EvPrint (Json (VDict ["effects" |-> VList [];
                            "embeddings" |-> VList [VFloat 1]]))], 0%Z).
Proof.
  split; [reflexivity|].
  exact (proj1 (missing_effects_key_gives_empty_array wav_host
                  ["fx_encoder_detect.py"; "a.wav"]
                  ["embeddings" |-> VList [VFloat 1]])
           (fx_answers embeddings_only_answer)
           (fx_answers_result embeddings_only_answer) eq_refl eq_refl).
Defined.

(** X7.  When the library answers with something that is not a mapping (a
    list, a string, [None], a number, a foreign object without [get]), the
    adapter prints one ErrorDocument whose [error] is the text of the
    [AttributeError], "'<type>' object has no attribute 'get'" with the name
    CPython prints for the type of the answer, and exits with status 1. *)
Theorem non_mapping_answer_is_an_error :
  forall (h : host) (argv : list string) (result : value),
    (forall rd, result <> VDict rd) ->
    let p := Path h (nth 1 argv "") in
    let report :=
      [EvPrint (Json (VDict ["error" |->
         VStr ("'" ++ tp_name result ++ "' object has no attribute 'get'")]))] in
    (forall b, fx_encoder_result h b argv result ->
       run (fx_encoder_detect.main h b argv) = (fx_encoder_steps p ++ report, 1%Z))
    /\ (forall b, llm2fx_result h b argv result ->
       run (llm2fx_detect.main h b argv) = (llm2fx_steps p ++ report, 1%Z))
    /\ (forall b, openamp_result h b argv result ->
       run (openamp_detect.main h b argv) = (openamp_steps p ++ report, 1%Z)).
Proof.
  intros h argv result Hnd p report.
  destruct (not_dict_get h result Hnd) as (HA & HB & HC).
  repeat apply conj; intros b Hres.
  - exact (fx_encoder_run_raised h b argv result _ Hres HA eq_refl).
  - exact (llm2fx_run_raised h b argv result _ Hres HB eq_refl).
  - exact (openamp_run_raised h b argv result _ Hres HC eq_refl).
Qed.

Lemma non_mapping_answer_is_an_error_witness :
  (forall rd, VObj "ndarray" "numpy.ndarray" None <> VDict rd) /\
  run (llm2fx_detect.main wav_host
         (llm2fx_answers (VObj "ndarray" "numpy.ndarray" None))
         ["llm2fx_detect.py"; "a.wav"])
  = ([EvExists "a.wav"; EvImport "llm2fx";
      EvCall "EffectPredictor.from_pretrained"; EvCall "predictor.analyze_audio";
      EvPrint (Json (VDict ["error" |->
         VStr "'numpy.ndarray' object has no attribute 'get'"]))], 1%Z).
Proof.
  assert (Hnd : forall rd, VObj "ndarray" "numpy.ndarray" None <> VDict rd)
    by discriminate.
  split; [exact Hnd|].
  exact (proj1 (proj2 (non_mapping_answer_is_an_error wav_host
                         ["llm2fx_detect.py"; "a.wav"]
                         (VObj "ndarray" "numpy.ndarray" None) Hnd))
           (llm2fx_answers (VObj "ndarray" "numpy.ndarray" None))
           (llm2fx_answers_result (VObj "ndarray" "numpy.ndarray" None))).
Defined.

Lemma fx_loop_refused h items :
  (exists item e, In item items /\ py_float h (snd item) = raise e) ->
  forall acc, exists e',
    for_each items (fx_encoder_detect.append_effect h) acc = raise e' /\
    is_import_error e' = false.
Proof.
  induction items as [|[name conf] items IH]; intros (item & e & Hin & He) acc.
  - destruct Hin.
  - cbn [for_each]. unfold fx_encoder_detect.append_effect at 1.
    destruct (py_float_cases h conf) as [[x Hx] | [e' He']].
    + rewrite Hx, !bind_ret_l. apply IH. exists item, e. split; [|exact He].
      destruct Hin as [<- | Hin]; [|exact Hin].
      cbn [snd] in He. rewrite Hx in He. discriminate.
    + exists e'. rewrite He'. split; [reflexivity|].
      exact (py_float_not_import h conf e' He').
Qed.

(** X8.  Variants A and C give all or nothing: when [float()] refuses the
    confidence of any item of the effect mapping (a [None], a list, a text
    that is no number, an integer too large), the run prints no
    DetectionResult, not even for the items that converted, but one
    ErrorDocument with only an [error] text, and exits with status 1. *)
Theorem unconvertible_confidence_is_an_error :
  forall (h : host) (argv : list string) (rd items : list (value * value))
         (item : value * value) (e : exn),
    In item items ->
    py_float h (snd item) = raise e ->
    let p := Path h (nth 1 argv "") in
    (forall b,
       fx_encoder_result h b argv (VDict rd) ->
       dict_get "effects" (VDict []) rd = VDict items ->
       exists msg,
         run (fx_encoder_detect.main h b argv)
         = (fx_encoder_steps p
              ++ [EvPrint (Json (VDict ["error" |-> VStr msg]))], 1%Z))
    /\ (forall b,
       openamp_result h b argv (VDict rd) ->
       dict_get "detected_effects" (VDict []) rd = VDict items ->
       exists msg,
         run (openamp_detect.main h b argv)
         = (openamp_steps p
              ++ [EvPrint (Json (VDict ["error" |-> VStr msg]))], 1%Z)).
Proof.
  intros h argv rd items item e Hin He p.
  destruct (fx_loop_refused h items (ex_intro _ item (ex_intro _ e (conj Hin He))) [])
    as (e' & Hloop & Hni).
  split; intros b Hres Hraw; exists (exn_msg e').
  - apply (fx_encoder_run_raised h b argv (VDict rd) e' Hres); [|exact Hni].
    unfold fx_encoder_detect.normalize. cbn [py_get]. rewrite bind_ret_l, Hraw.
    cbn [py_items]. rewrite bind_ret_l, Hloop. reflexivity.
  - apply (openamp_run_raised h b argv (VDict rd) e' Hres); [|exact Hni].
    unfold openamp_detect.normalize. cbn [py_get]. rewrite bind_ret_l, Hraw.
    cbn [py_items]. rewrite bind_ret_l.
    change (openamp_detect.append_effect h) with (fx_encoder_detect.append_effect h).
    rewrite Hloop. reflexivity.
Qed.

Lemma unconvertible_confidence_is_an_error_witness :
  In ("delay" |-> VNone) ["reverb" |-> VFloat 0.5; "delay" |-> VNone] /\
  py_float wav_host VNone
    = raise (TypeError
        "float() argument must be a string or a real number, not 'NoneType'") /\
  exists msg,
    run (fx_encoder_detect.main wav_host
           (fx_answers (VDict ["effects" |->
              VDict ["reverb" |-> VFloat 0.5; "delay" |-> VNone]]))
           ["fx_encoder_detect.py"; "a.wav"])
    = (fx_encoder_steps "a.wav"
         ++ [EvPrint (Json (VDict ["error" |-> VStr msg]))], 1%Z).
Proof.
  assert (Hin : In ("delay" |-> VNone) ["reverb" |-> VFloat 0.5; "delay" |-> VNone])
    by (right; left; reflexivity).
  split; [exact Hin|]. split; [reflexivity|].
  exact (proj1 (unconvertible_confidence_is_an_error wav_host
                  ["fx_encoder_detect.py"; "a.wav"]
                  ["effects" |-> VDict ["reverb" |-> VFloat 0.5; "delay" |-> VNone]]
                  ["reverb" |-> VFloat 0.5; "delay" |-> VNone]
                  ("delay" |-> VNone) _ Hin eq_refl)
           _ (fx_answers_result _) eq_refl).
Defined.

(** X9.  Variants A and C pass the embeddings through untouched into the
    document they serialise, so when [json.dumps] refuses that document (as
    it does for embeddings that hold a numpy array) the whole run is an
    error: even when every effect is well formed, the run prints one
    ErrorDocument with the text of the exception [json.dumps] raised and
    exits with status 1, and no DetectionResult is printed. *)
Theorem unserialisable_embeddings_is_an_error :
  forall (h : host) (argv : list string) (rd items : list (value * value))
         (e : exn),
    Forall (fun item => is_str (fst item) = true /\ is_float (snd item) = true)
           items ->
    let p := Path h (nth 1 argv "") in
    let report := [EvPrint (Json (VDict ["error" |-> VStr (exn_msg e)]))] in
    (forall b,
       fx_encoder_result h b argv (VDict rd) ->
       dict_get "effects" (VDict []) rd = VDict items ->
       json_error h (VDict ["effects" |-> VList (map named_effect items);
                            "embeddings" |-> dict_get "embeddings" (VList []) rd])
         = Some e ->
       run (fx_encoder_detect.main h b argv) = (fx_encoder_steps p ++ report, 1%Z))
    /\ (forall b,
       openamp_result h b argv (VDict rd) ->
       dict_get "detected_effects" (VDict []) rd = VDict items ->
       json_error h (VDict ["effects" |-> VList (map named_effect items);
                            "embeddings" |-> dict_get "encodings" (VList []) rd])
         = Some e ->
       run (openamp_detect.main h b argv) = (openamp_steps p ++ report, 1%Z)).
Proof.
  intros h argv rd items e Hitems p report.
  pose proof (well_formed_items_coerced h items Hitems) as HF.
  split; intros b Hres Hraw Hjs.
  - apply (fx_encoder_run_raised h b argv (VDict rd) e Hres).
    + exact (fx_encoder_normalize_refused h rd items _ e Hraw HF Hjs).
    + exact (json_error_not_import h _ e Hjs).
  - apply (openamp_run_raised h b argv (VDict rd) e Hres).
    + exact (openamp_normalize_refused h rd items _ e Hraw HF Hjs).
    + exact (json_error_not_import h _ e Hjs).
Qed.

Lemma unserialisable_embeddings_is_an_error_witness :
  json_error wav_host
    (VDict ["effects" |->
              VList [VDict ["name" |-> VStr "reverb"; "confidence" |-> VFloat 0.5]];
            "embeddings" |-> VObj "ndarray" "numpy.ndarray" None])
    = Some (TypeError "Object of type ndarray is not JSON serializable") /\
  run (fx_encoder_detect.main wav_host (fx_answers ndarray_answer)
         ["fx_encoder_detect.py"; "a.wav"])
  = ([EvExists "a.wav"; EvImport "fx_encoder";
      EvCall "FxEncoder.from_pretrained"; EvCall "encoder.analyze";
      EvPrint (Json (VDict ["error" |->
         VStr "Object of type ndarray is not JSON serializable"]))], 1%Z).
Proof.
  split; [reflexivity|].
  refine (proj1 (unserialisable_embeddings_is_an_error wav_host
                   ["fx_encoder_detect.py"; "a.wav"]
                   ["effects" |-> VDict ["reverb" |-> VFloat 0.5];
                    "embeddings" |-> VObj "ndarray" "numpy.ndarray" None]
                   ["reverb" |-> VFloat 0.5]
                   (TypeError "Object of type ndarray is not JSON serializable") _)
            (fx_answers ndarray_answer) (fx_answers_result ndarray_answer)
            eq_refl eq_refl).
  repeat constructor.
Defined.

(** X10.  Variant C decodes the audio before it loads the encoder: when
    [librosa.load] raises an exception that is not an [ImportError], the run
    prints one ErrorDocument with the text of the exception and exits with
    status 1, and neither [from_pretrained] nor [extract] is ever called. *)
Theorem decode_failure_stops_before_the_encoder :
  forall (h : host) (b : openamp_detect.backend) (argv : list string) (e : exn),
    (2 <= length argv)%nat ->
    path_exists h (Path h (nth 1 argv "")) = Returns true ->
    openamp_detect.import_librosa b = Returns tt ->
    openamp_detect.import_openamp b = Returns tt ->
    openamp_detect.librosa_load b (Path h (nth 1 argv "")) = Raises e ->
    is_import_error e = false ->
    run (openamp_detect.main h b argv)
    = ([EvExists (Path h (nth 1 argv "")); EvImport "librosa"; EvImport "openamp";
        EvCall "librosa.load";
        EvPrint (Json (VDict ["error" |-> VStr (exn_msg e)]))], 1%Z).
Proof.
  intros h b argv e Hlen Hex Hi1 Hi2 Hld He. rewrite openamp_main_script.
  rewrite (script_failed _ _ _ _ _ _
             [EvImport "librosa"; EvImport "openamp"; EvCall "librosa.load"]
             e Hlen Hex).
  - unfold error_doc. rewrite He. reflexivity.
  - unfold openamp_detect.try_block, call. rewrite Hi1, Hi2, Hld. reflexivity.
Qed.

Lemma decode_failure_stops_before_the_encoder_witness :
  (2 <= length ["openamp_detect.py"; "a.wav"])%nat /\
  run (openamp_detect.main wav_host (openamp_decoding_fails bad_audio)
         ["openamp_detect.py"; "a.wav"])
  = ([EvExists "a.wav"; EvImport "librosa"; EvImport "openamp";
      EvCall "librosa.load";
      EvPrint (Json (VDict ["error" |-> VStr "unsupported audio format"]))], 1%Z).
Proof.
  assert (Hlen : (2 <= length ["openamp_detect.py"; "a.wav"])%nat) by (cbn; lia).
  split; [exact Hlen|].
  exact (decode_failure_stops_before_the_encoder wav_host
           (openamp_decoding_fails bad_audio) ["openamp_detect.py"; "a.wav"]
           bad_audio Hlen eq_refl eq_refl eq_refl eq_refl eq_refl).
Defined.

(** X11.  Variant B gives all or nothing too: when the chain holds an entry
    that is not a mapping, after any number of entries that are, the run
    prints no DetectionResult but one ErrorDocument,
    "'<type>' object has no attribute 'get'" with the name CPython prints for
    the type of that entry, and exits with status 1. *)
Theorem non_mapping_entry_is_an_error :
  forall (h : host) (b : llm2fx_detect.backend) (argv : list string)
         (rd : list (value * value)) (ds : list (list (value * value)))
         (bad : value) (post : list value),
    llm2fx_result h b argv (VDict rd) ->
    dict_get "effect_chain" (VList []) rd = VList (map VDict ds ++ bad :: post) ->
    (forall d, bad <> VDict d) ->
    run (llm2fx_detect.main h b argv)
    = (llm2fx_steps (Path h (nth 1 argv ""))
         ++ [EvPrint (Json (VDict ["error" |->
               VStr ("'" ++ tp_name bad ++ "' object has no attribute 'get'")]))],
       1%Z).
Proof.
  intros h b argv rd ds bad post Hres Hraw Hbad.
  exact (llm2fx_run_raised h b argv (VDict rd) _ Hres
           (llm2fx_normalize_bad_entry h rd ds bad post Hraw Hbad) eq_refl).
Qed.

Lemma non_mapping_entry_is_an_error_witness :
  (forall d, VStr "delay" <> VDict d) /\
  run (llm2fx_detect.main wav_host (llm2fx_answers mixed_chain_answer)
         ["llm2fx_detect.py"; "a.wav"])
  = ([EvExists "a.wav"; EvImport "llm2fx";
      EvCall "EffectPredictor.from_pretrained"; EvCall "predictor.analyze_audio";
      EvPrint (Json (VDict ["error" |->
         VStr "'str' object has no attribute 'get'"]))], 1%Z).
Proof.
  assert (Hbad : forall d, VStr "delay" <> VDict d) by discriminate.
  split; [exact Hbad|].
  exact (non_mapping_entry_is_an_error wav_host (llm2fx_answers mixed_chain_answer)
           ["llm2fx_detect.py"; "a.wav"]
           ["effect_chain" |-> VList [VDict ["type" |-> VStr "reverb"]; VStr "delay"]]
           [["type" |-> VStr "reverb"]] (VStr "delay") []
           (llm2fx_answers_result mixed_chain_answer) eq_refl Hbad).
Defined.

(** X12.  The library is behind both guards: a run imports a module or
    calls into the library only when a path argument was given and names an
    existing file-system entry. *)
Theorem library_needs_an_existing_path :
  forall (h : host) (argv : list string),
    let guarded :=
      (2 <= length argv)%nat /\
      path_exists h (Path h (nth 1 argv "")) = Returns true in
    (forall b, touches_library (fst (run (fx_encoder_detect.main h b argv))) = true
               -> guarded)
    /\ (forall b, touches_library (fst (run (llm2fx_detect.main h b argv))) = true
               -> guarded)
    /\ (forall b, touches_library (fst (run (openamp_detect.main h b argv))) = true
               -> guarded).
Proof.
  intros h argv guarded. subst guarded. repeat apply conj; intros b.
  - destruct (fx_encoder_run_cases h b argv)
      as [[_ H] | [(_ & e0 & _ & H) | [(_ & _ & H)
         | [(Hlen & Hex & _) | (Hlen & Hex & _)]]]];
      try (rewrite H; discriminate); intros _; split; assumption.
  - destruct (llm2fx_run_cases h b argv)
      as [[_ H] | [(_ & e0 & _ & H) | [(_ & _ & H)
         | [(Hlen & Hex & _) | (Hlen & Hex & _)]]]];
      try (rewrite H; discriminate); intros _; split; assumption.
  - destruct (openamp_run_cases h b argv)
      as [[_ H] | [(_ & e0 & _ & H) | [(_ & _ & H)
         | [(Hlen & Hex & _) | (Hlen & Hex & _)]]]];
      try (rewrite H; discriminate); intros _; split; assumption.
Qed.

Lemma library_needs_an_existing_path_witness :
  touches_library
    (fst (run (llm2fx_detect.main wav_host (llm2fx_answers reverb_answer)
                 ["llm2fx_detect.py"; "a.wav"]))) = true /\
  (2 <= length ["llm2fx_detect.py"; "a.wav"])%nat /\
  path_exists wav_host (Path wav_host "a.wav") = Returns true.
Proof.
  split; [reflexivity|].
  exact (proj1 (proj2 (library_needs_an_existing_path wav_host
                         ["llm2fx_detect.py"; "a.wav"]))
           (llm2fx_answers reverb_answer) eq_refl).
Defined.
